(** * zhuanhuan_optimized.py: XML bounding boxes to normalised centre format

    A shallow embedding of [XMLtoYOLOConverter] (src/zhuanhuan_optimized.py)
    and the properties of its specification.

    Conventions of the embedding.
    - The converter is embedded twice. The first embedding computes with
      exact rationals: a Python [float] is a [Q], nothing is rounded and
      nothing overflows; equality of results is [Qeq] ([==]). It carries
      the properties that do not depend on the arithmetic and the
      algebra of the transform. The module [F64] is the converter as
      Python runs it: a [float] is a binary64 number (a primitive float),
      an [int] that divides a float is first converted to one, and the
      path of the input directory is part of the glob pattern.
    - Python [int] values are [Z].
    - A Python exception is a value of [exn]; a computation that may raise
      is in the monad [result], the body of the [with open(...)] block is
      in [io], which also threads the text written to the open file.
    - The builtins [int(str)] and [float(str)] are parameters of the
      development ([py_int], [py_float]); [None] stands for [ValueError].
    - [ET.parse] is not modelled: an input file comes with the outcome of
      parsing it, either a tree or a failure.
    - The output directory is a finite map from file names to file
      texts; opening and writing a file there always succeeds. *)

From Stdlib Require Import Ascii QArith Qabs Qround Lqa.
From Stdlib Require Import PrimFloat FloatOps SpecFloat.
From stdpp Require Import gmap strings list pretty.

Set Warnings "-register-all,-inexact-float".
Local Open Scope string_scope.

(** ** Exceptions and the two monads *)

Inductive exn :=
| AttributeError     (* [None.text], [None.find] *)
| TypeError          (* [int(None)], [float(None)] *)
| ValueError         (* [int(s)], [float(s)] on a malformed [s] *)
| ZeroDivisionError  (* [1.0 / 0] *)
| ParseError         (* [ET.parse] on a malformed or unreadable file *)
| OverflowError.     (* an [int] too large to convert to [float] *)

Inductive result (A : Type) :=
| Ok (a : A)
| Raise (e : exn).
Arguments Ok {A} a.
Arguments Raise {A} e.

Global Instance result_ret : MRet result := λ A a, Ok a.
Global Instance result_bind : MBind result := λ A B k r,
  match r with
  | Ok a => k a
  | Raise e => Raise e
  end.

(** [io A]: a computation inside [with open(output_file, 'w') as out_file],
    from the text written so far to an outcome and the text written then.
    What has been written stays written when an exception is raised. *)
Definition io (A : Type) : Type := string → result A * string.

Global Instance io_ret : MRet io := λ A a s, (Ok a, s).
Global Instance io_bind : MBind io := λ A B k m s,
  match m s with
  | (Ok a, s') => k a s'
  | (Raise e, s') => (Raise e, s')
  end.
(** A pure computation run inside the block. *)
Definition io_lift {A} (r : result A) : io A := λ s, (r, s).
(** [out_file.write(line)] *)
Definition write (line : string) : io unit := λ s, (Ok tt, s +:+ line).

(** ** [xml.etree.ElementTree] *)

Module ET.

(** An element: its tag, its [.text] ([None] when the element holds no
    character data before its first child) and its children in document
    order. Attributes and tails are never read by the converter. *)
Inductive Element :=
| Elem (tag : string) (text : option string) (children : list Element).

Definition tag (e : Element) : string :=
  match e with Elem t _ _ => t end.
Definition text (e : Element) : option string :=
  match e with Elem _ x _ => x end.
Definition children (e : Element) : list Element :=
  match e with Elem _ _ cs => cs end.

(** [e.find(name)]: the first child of [e] with that tag, [None] when
    there is none. *)
Definition find (name : string) (e : Element) : option Element :=
  List.find (λ c, String.eqb (tag c) name) (children e).

(** [e.iter(name)]: [e] and its descendants with that tag, in document
    order. *)
Fixpoint iter (name : string) (e : Element) : list Element :=
  match e with
  | Elem t x cs =>
      (if String.eqb t name then [Elem t x cs] else [])
        ++ flat_map (iter name) cs
  end.

(** [o.text] where [o] is the result of a [find]: [AttributeError] on
    [None]. *)
Definition text_of (o : option Element) : result (option string) :=
  match o with
  | Some e => Ok (text e)
  | None => Raise AttributeError
  end.

End ET.

(** ** Numbers *)

(** [a / b] in exact arithmetic: Python raises on a zero divisor. (The
    binary64 division, with the conversion of an [int] divisor and its
    [OverflowError], is [F64.truediv].) *)
Definition truediv (a b : Q) : result Q :=
  if Qeq_bool b 0 then Raise ZeroDivisionError else Ok (a / b)%Q.

(** Round half to even of a non-negative rational. *)
Definition round_half_even (q : Q) : Z :=
  let n := Qnum q in
  let d := Zpos (Qden q) in
  let f := (n / d)%Z in
  match (2 * (n mod d) ?= d)%Z with
  | Lt => f
  | Gt => (f + 1)%Z
  | Eq => if Z.even f then f else (f + 1)%Z
  end.

Definition digit (n : Z) : ascii :=
  ascii_of_nat (48 + Z.to_nat (n mod 10)).

(** The six decimals of [m], [0 <= m < 10^6], with leading zeros. *)
Definition six_digits (m : Z) : string :=
  String (digit (m / 100000)) (String (digit (m / 10000))
  (String (digit (m / 1000)) (String (digit (m / 100))
  (String (digit (m / 10)) (String (digit m) ""))))).

(** [f'{a:.6f}'] on an exact value: sign, integer part, point, six
    decimals; the value is rounded half to even at the sixth decimal.
    (On a float, with NaN, the infinities and the signed zeros, it is
    [F64.format6].) *)
Definition format6 (a : Q) : string :=
  let m := round_half_even (Qabs a * 1000000) in
  (if Qle_bool 0 a then "" else "-")
    +:+ pretty (m / 1000000)%Z +:+ "." +:+ six_digits (m mod 1000000).

(** ** The converter *)

Definition box : Type := Q * Q * Q * Q.

(** [convert_coordinates(self, image_size, box)], lines 38-66, in exact
    arithmetic: [image_size = (width, height)],
    [box = (xmin, xmax, ymin, ymax)]. (In binary64 it is
    [F64.convert_coordinates].) *)
Definition convert_coordinates (image_size : Z * Z) (b : box)
  : result box :=
  let '(b0, b1, b2, b3) := b in
  dw ← truediv 1 (inject_Z (fst image_size));
  dh ← truediv 1 (inject_Z (snd image_size));
  let x := ((b0 + b1) / 2)%Q in
  let y := ((b2 + b3) / 2)%Q in
  let w := (b1 - b0)%Q in
  let h := (b3 - b2)%Q in
  let x := (x * dw)%Q in
  let w := (w * dw)%Q in
  let y := (y * dh)%Q in
  let h := (h * dh)%Q in
  Ok (x, y, w, h).

Definition newline : string := String (ascii_of_nat 10) "".

(** [x in l] and [l.index(x)] for a list of strings [l] and an [x] that
    is a string or [None]; [index] raises [ValueError] when [x] is not
    in [l]. *)
Definition contains (x : option string) (l : list string) : bool :=
  match x with
  | Some c => existsb (String.eqb c) l
  | None => false
  end.

Fixpoint index_from (i : nat) (c : string) (l : list string) : result nat :=
  match l with
  | [] => Raise ValueError
  | d :: l' => if String.eqb d c then Ok i else index_from (S i) c l'
  end.

Definition index (x : option string) (l : list string) : result nat :=
  match x with
  | Some c => index_from 0 c l
  | None => Raise ValueError
  end.

(** [for x in l: body(x)] *)
Fixpoint for_each {A} (body : A → io unit) (l : list A) : io unit :=
  match l with
  | [] => mret tt
  | x :: l' => _ ← body x; for_each body l'
  end.

(** [os.path.basename(xml_file)[:-4]] for a file of the input directory:
    the name without its last four characters. *)
Definition stem (name : string) : string :=
  String.substring 0 (String.length name - 4) name.

(** [glob.glob(os.path.join(input_dir, '*.xml'))]: the names of the
    directory that end in [.xml] (case matters, as on a POSIX system); a
    name with a leading dot is hidden from a pattern that does not start
    with one. *)
Definition matches_xml (name : string) : bool :=
  negb (String.prefix "." name)
  && String.eqb (String.substring (String.length name - 4) 4 name) ".xml".

Section Converter.

(** [int(s)] and [float(s)] on a string, [None] for [ValueError]. *)
Variable py_int : string → option Z.
Variable py_float : string → option Q.
(** [self.classes] *)
Variable classes : list string.

Definition int_ (t : option string) : result Z :=
  match t with
  | None => Raise TypeError
  | Some s => match py_int s with Some n => Ok n | None => Raise ValueError end
  end.

Definition float_ (t : option string) : result Q :=
  match t with
  | None => Raise TypeError
  | Some s => match py_float s with Some a => Ok a | None => Raise ValueError end
  end.

(** The line written for one box, line 132. *)
Definition yolo_line (cls_id : nat) (bb : box) : string :=
  let '(x, y, w, h) := bb in
  pretty cls_id +:+ " "
    +:+ String.concat " " [format6 x; format6 y; format6 w; format6 h]
    +:+ newline.

(** Lines 119-122, the body of the inner [try]. *)
Definition corners (xmlbox : ET.Element) : result box :=
  xmin ← ET.text_of (ET.find "xmin" xmlbox) ≫= float_;
  xmax ← ET.text_of (ET.find "xmax" xmlbox) ≫= float_;
  ymin ← ET.text_of (ET.find "ymin" xmlbox) ≫= float_;
  ymax ← ET.text_of (ET.find "ymax" xmlbox) ≫= float_;
  mret (xmin, xmax, ymin, ymax).

(** Lines 100-101: whether the object is skipped as difficult. *)
Definition is_difficult (obj : ET.Element) : result bool :=
  match ET.find "difficult" obj with
  | None => mret false
  | Some difficult => n ← int_ (ET.text difficult); mret (n =? 1)%Z
  end.

(** The body of the loop over the objects, lines 99-132. Returning
    [tt] early is [continue]. *)
Definition convert_object (width height : Z) (obj : ET.Element) : io unit :=
  skip ← io_lift (is_difficult obj);
  if skip : bool then mret tt else
  cls ← io_lift (ET.text_of (ET.find "name" obj));
  if negb (contains cls classes) then mret tt else
  cls_id ← io_lift (index cls classes);
  match ET.find "bndbox" obj with
  | None => mret tt
  | Some xmlbox =>
      match corners xmlbox with
      | Raise AttributeError | Raise ValueError => mret tt
      | Raise e => io_lift (Raise e)
      | Ok b =>
          bb ← io_lift (convert_coordinates (width, height) b);
          write (yolo_line cls_id bb)
      end
  end.

(** The body of the [with] block, lines 88-134; its value is the value
    returned from inside the block. *)
Definition convert_root (root : ET.Element) : io bool :=
  match ET.find "size" root with
  | None => mret false
  | Some size =>
      width ← io_lift (ET.text_of (ET.find "width" size) ≫= int_);
      height ← io_lift (ET.text_of (ET.find "height" size) ≫= int_);
      _ ← for_each (convert_object width height) (ET.iter "object" root);
      mret true
  end.

(** [convert_annotation(self, xml_file)], lines 68-138. The file is
    given by its name in the input directory and the outcome of
    [ET.parse] on it. Opening the output file creates or truncates it;
    leaving the [with] block, by [return] or by an exception, closes it
    with the text written so far. *)
Definition convert_annotation (xml_file : string * result ET.Element)
    (out : gmap string string) : bool * gmap string string :=
  let file_name := stem xml_file.1 in
  match xml_file.2 with
  | Raise _ => (false, out)
  | Ok root =>
      let output_file := file_name +:+ ".txt" in
      match convert_root root "" with
      | (Ok b, txt) => (b, <[output_file := txt]> out)
      | (Raise _, txt) => (false, <[output_file := txt]> out)
      end
  end.

(** [convert_all(self)], lines 140-163, on the listing of the input
    directory, that is on the entries among which the glob picks. (With
    the path of the directory in the glob pattern it is
    [F64.convert_all].) *)
Definition convert_all (input_dir : list (string * result ET.Element))
    (out : gmap string string) : (nat * nat) * gmap string string :=
  let xml_files := filter (λ f, matches_xml f.1 = true) input_dir in
  let total_files := length xml_files in
  if (total_files =? 0)%nat then ((0, 0), out)%nat else
  let '(success_count, out') :=
    foldl (λ '(n, o) xml_file,
             let '(b, o') := convert_annotation xml_file o in
             (if b then S n else n, o'))
          (0%nat, out) xml_files in
  ((success_count, total_files), out').

End Converter.

(** ** Concrete documents

    A decimal reading of [int(s)] and [float(s)] for the concrete
    documents below: an optional minus sign and ASCII digits, for a float
    with an optional fraction after a point. Where they return a number,
    Python's builtins return the same one (up to binary64 rounding for
    floats); the documents use [abc] where a [ValueError] is meant. *)
Module Sample.

Definition is_digit (c : ascii) : bool :=
  (48 <=? nat_of_ascii c)%nat && (nat_of_ascii c <=? 57)%nat.
Definition digit_value (c : ascii) : Z := Z.of_nat (nat_of_ascii c - 48).

Fixpoint dec_digits (n : Z) (s : string) : option Z :=
  match s with
  | "" => Some n
  | String c s' =>
      if is_digit c then dec_digits (10 * n + digit_value c) s' else None
  end.

Definition unsigned_int (s : string) : option Z :=
  match s with
  | "" => None
  | _ => dec_digits 0 s
  end.

Definition dec_int (s : string) : option Z :=
  match s with
  | String "-" s' => Z.opp <$> unsigned_int s'
  | _ => unsigned_int s
  end.

Fixpoint dec_fraction (n : Z) (d : positive) (s : string) : option Q :=
  match s with
  | "" => Some (n # d)
  | String c s' =>
      if is_digit c
      then dec_fraction (10 * n + digit_value c) (10 * d) s'
      else None
  end.

Fixpoint dec_point (n : Z) (s : string) : option Q :=
  match s with
  | "" => Some (inject_Z n)
  | String "." "" => None
  | String "." s' => dec_fraction n 1 s'
  | String c s' =>
      if is_digit c then dec_point (10 * n + digit_value c) s' else None
  end.

Definition unsigned_float (s : string) : option Q :=
  match s with
  | "" | String "." _ => None
  | _ => dec_point 0 s
  end.

Definition dec_float (s : string) : option Q :=
  match s with
  | String "-" s' => Qopp <$> unsigned_float s'
  | _ => unsigned_float s
  end.

Definition leaf (tag txt : string) : ET.Element := ET.Elem tag (Some txt) [].
Definition node (tag : string) (cs : list ET.Element) : ET.Element :=
  ET.Elem tag None cs.

Definition size (w h : string) : ET.Element :=
  node "size" [leaf "width" w; leaf "height" h].
Definition bndbox (xmin ymin xmax ymax : string) : ET.Element :=
  node "bndbox"
    [leaf "xmin" xmin; leaf "ymin" ymin; leaf "xmax" xmax; leaf "ymax" ymax].

Definition classes : list string := ["battery"; "drug"; "plastic"].

(** A drug at (10,50)-(30,150). *)
Definition drug : ET.Element :=
  node "object"
    [leaf "name" "drug"; leaf "difficult" "0"; bndbox "10" "50" "30" "150"].
(** The same object marked difficult. *)
Definition hard_drug : ET.Element :=
  node "object"
    [leaf "name" "drug"; leaf "difficult" "1"; bndbox "10" "50" "30" "150"].
(** An object of a class that is not configured. *)
Definition cup : ET.Element :=
  node "object" [leaf "name" "cup"; bndbox "0" "0" "50" "50"].
(** Objects without a name, the second one marked difficult. *)
Definition nameless : ET.Element :=
  node "object" [bndbox "0" "0" "50" "50"].
Definition hard_nameless : ET.Element :=
  node "object" [leaf "difficult" "1"; bndbox "0" "0" "50" "50"].
(** Objects without a box and with a corner that is not a number. *)
Definition boxless : ET.Element :=
  node "object" [leaf "name" "battery"].
Definition bad_corner : ET.Element :=
  node "object" [leaf "name" "battery"; bndbox "0" "abc" "50" "50"].

Definition annotation (cs : list ET.Element) : ET.Element :=
  node "annotation" cs.

Definition convert (name : string) (doc : result ET.Element) :=
  convert_annotation dec_int dec_float classes (name, doc) ∅.

(** The size record of a 100 by 200 image, and the line of the drug
    above in it. *)
Definition size_100_200 : ET.Element := size "100" "200".
Definition drug_line : string :=
  "1 0.200000 0.500000 0.200000 0.500000" +:+ newline.

(** A directory: a good file, a file that does not parse, a file that
    is not an annotation, a file without a size record and a file whose
    objects are all passed over. *)
Definition input_dir : list (string * result ET.Element) :=
  [("a.xml", Ok (annotation [size_100_200; drug]));
   ("b.xml", Raise ParseError);
   ("notes.txt", Raise ParseError);
   ("c.xml", Ok (annotation [drug]));
   ("d.xml", Ok (annotation [size_100_200; hard_drug; cup]))].

(** A battery whose [xmin] element has no text, and one whose
    difficulty flag is not an integer. *)
Definition empty_corner : ET.Element :=
  node "object"
    [leaf "name" "battery";
     node "bndbox"
       [ET.Elem "xmin" None []; leaf "ymin" "0"; leaf "xmax" "50";
        leaf "ymax" "50"]].
Definition bad_flag : ET.Element :=
  node "object"
    [leaf "name" "battery"; leaf "difficult" "abc"; bndbox "0" "0" "50" "50"].

End Sample.

(** ** The command line *)

(** [s.split(sep)] for a separator of one character: the pieces between
    the occurrences of [sep], empty pieces included; the empty string
    splits into one empty piece. *)
Fixpoint split (sep : ascii) (s : string) : list string :=
  match s with
  | "" => [""]
  | String c s' =>
      if Ascii.eqb c sep then "" :: split sep s'
      else match split sep s' with
           | piece :: rest => String c piece :: rest
           | [] => [String c ""]
           end
  end.

Section CommandLine.

Variable py_int : string → option Z.
Variable py_float : string → option Q.

(** [main()], lines 166-198, from the parsed [--classes] argument and
    the listing of the input directory. What it prints is returned: the
    number of converted files, the number of files, and the number of
    failed files, printed only when there is one. *)
Definition main (args_classes : string)
    (input_dir : list (string * result ET.Element))
    (out : gmap string string)
  : (nat * nat * option nat) * gmap string string :=
  let classes := split "," args_classes in
  let '((success_count, total_files), out') :=
    convert_all py_int py_float classes input_dir out in
  ((success_count, total_files,
    if (success_count <? total_files)%nat
    then Some (total_files - success_count)%nat else None),
   out').

(** What the loop body writes for one object. *)
Definition object_text (classes : list string) (width height : Z)
    (obj : ET.Element) : string :=
  (convert_object py_int py_float classes width height obj "").2.

End CommandLine.

(** The names of the four corners, in the order the converter reads
    them. *)
Definition corner_names : list string := ["xmin"; "xmax"; "ymin"; "ymax"].

(** The name of the output file of an input file. *)
Definition output_name (f : string * result ET.Element) : string :=
  stem f.1 +:+ ".txt".

(** ** The converter over binary64

    The definitions above compute with exact rationals. This module is
    the converter as Python runs it: a [float] is a binary64 number (a
    primitive float, with its rounding, its infinities, NaN and signed
    zeros), an [int] is converted to a [float] before it divides one, and
    the directory path is part of the glob pattern. What does not depend
    on the arithmetic ([is_difficult], [int_], [contains], [index],
    [for_each], [stem], [matches_xml]) is shared with the exact model. *)

(** [glob.has_magic]: the path holds one of the characters that make a
    pattern of it. *)
Definition is_magic (c : ascii) : bool :=
  Ascii.eqb c "*" || Ascii.eqb c "?" || Ascii.eqb c "[".

Fixpoint has_magic (s : string) : bool :=
  match s with
  | "" => false
  | String c s' => is_magic c || has_magic s'
  end.

Module F64.

(** An [int] as a [float], as Python converts the right operand of
    [1.0 / n]: rounded to the nearest float, ties to even, and
    [OverflowError] when that is beyond the largest float. *)
Definition of_int (n : Z) : result float :=
  let f := SF2Prim (binary_normalize prec emax n 0 false) in
  if is_infinity f then Raise OverflowError else Ok f.

(** [a / n] for a float [a] and an int [n]. *)
Definition truediv (a : float) (n : Z) : result float :=
  b ← of_int n;
  if is_zero b then Raise ZeroDivisionError else Ok (a / b)%float.

Definition box : Type := float * float * float * float.

(** [convert_coordinates(self, image_size, box)], lines 38-66. *)
Definition convert_coordinates (image_size : Z * Z) (b : box) : result box :=
  let '(b0, b1, b2, b3) := b in
  dw ← truediv 1 image_size.1;
  dh ← truediv 1 image_size.2;
  let x := ((b0 + b1) / 2)%float in
  let y := ((b2 + b3) / 2)%float in
  let w := (b1 - b0)%float in
  let h := (b3 - b2)%float in
  let x := (x * dw)%float in
  let w := (w * dw)%float in
  let y := (y * dh)%float in
  let h := (h * dh)%float in
  Ok (x, y, w, h).

(** The rational that a finite float with mantissa [m] and exponent [e]
    stands for, sign apart. *)
Definition magnitude (m : positive) (e : Z) : Q :=
  match e with
  | Z0 => inject_Z (Zpos m)
  | Zpos p => inject_Z (Zpos m * Z.pow_pos 2 p)
  | Zneg p => Zpos m # Pos.pow 2 p
  end.


(** [f'{a:.6f}'] on a float: [nan], [inf] and [-inf] for the values that
    are not numbers, a signed zero with its sign, and the exact value of
    a finite float rounded half to even at the sixth decimal. *)
Definition format6 (f : float) : string :=
  match Prim2SF f with
  | S754_nan => "nan"
  | S754_infinity s => if s then "-inf" else "inf"
  | S754_zero s => (if s then "-" else "") +:+ "0.000000"
  | S754_finite s m e =>
      format6 (if s then Qopp (magnitude m e) else magnitude m e)
  end.

Section Converter.

(** [int(s)] and [float(s)] on a string, [None] for [ValueError]; a
    float may be an infinity or NaN, as for the strings [inf] and
    [nan]. *)
Variable py_int : string → option Z.
Variable py_float : string → option float.
(** [self.classes] *)
Variable classes : list string.

Definition float_ (t : option string) : result float :=
  match t with
  | None => Raise TypeError
  | Some s => match py_float s with Some a => Ok a | None => Raise ValueError end
  end.

(** The line written for one box, line 132. *)
Definition yolo_line (cls_id : nat) (bb : box) : string :=
  let '(x, y, w, h) := bb in
  pretty cls_id +:+ " "
    +:+ String.concat " " [format6 x; format6 y; format6 w; format6 h]
    +:+ newline.

(** Lines 119-122, the body of the inner [try]. *)
Definition corners (xmlbox : ET.Element) : result box :=
  xmin ← ET.text_of (ET.find "xmin" xmlbox) ≫= float_;
  xmax ← ET.text_of (ET.find "xmax" xmlbox) ≫= float_;
  ymin ← ET.text_of (ET.find "ymin" xmlbox) ≫= float_;
  ymax ← ET.text_of (ET.find "ymax" xmlbox) ≫= float_;
  mret (xmin, xmax, ymin, ymax).

(** The body of the loop over the objects, lines 99-132. *)
Definition convert_object (width height : Z) (obj : ET.Element) : io unit :=
  skip ← io_lift (is_difficult py_int obj);
  if skip : bool then mret tt else
  cls ← io_lift (ET.text_of (ET.find "name" obj));
  if negb (contains cls classes) then mret tt else
  cls_id ← io_lift (index cls classes);
  match ET.find "bndbox" obj with
  | None => mret tt
  | Some xmlbox =>
      match corners xmlbox with
      | Raise AttributeError | Raise ValueError => mret tt
      | Raise e => io_lift (Raise e)
      | Ok b =>
          bb ← io_lift (convert_coordinates (width, height) b);
          write (yolo_line cls_id bb)
      end
  end.

(** The body of the [with] block, lines 88-134. *)
Definition convert_root (root : ET.Element) : io bool :=
  match ET.find "size" root with
  | None => mret false
  | Some size =>
      width ← io_lift (ET.text_of (ET.find "width" size) ≫= int_ py_int);
      height ← io_lift (ET.text_of (ET.find "height" size) ≫= int_ py_int);
      _ ← for_each (convert_object width height) (ET.iter "object" root);
      mret true
  end.

(** [convert_annotation(self, xml_file)], lines 68-138. *)
Definition convert_annotation (xml_file : string * result ET.Element)
    (out : gmap string string) : bool * gmap string string :=
  let file_name := stem xml_file.1 in
  match xml_file.2 with
  | Raise _ => (false, out)
  | Ok root =>
      let output_file := file_name +:+ ".txt" in
      match convert_root root "" with
      | (Ok b, txt) => (b, <[output_file := txt]> out)
      | (Raise _, txt) => (false, <[output_file := txt]> out)
      end
  end.

(** The file system as the batch sees it: the entries of a directory,
    each with the outcome of [ET.parse] on it (no entry when the
    directory cannot be listed), and the directories that a path with
    pattern characters matches. *)
Variable listdir : string → list (string * result ET.Element).
Variable glob_dirs : string → list string.

(** [glob.glob(os.path.join(input_dir, '*.xml'))], line 148. The
    directory part of the pattern is [input_dir]: when it holds a pattern
    character it is matched against the file system, and the files are
    looked for in the directories it matches; otherwise they are looked
    for in [input_dir]. *)
Definition glob_xml (input_dir : string) : list (string * result ET.Element) :=
  let dirs := if has_magic input_dir then glob_dirs input_dir else [input_dir] in
  flat_map (λ d, filter (λ f, matches_xml f.1 = true) (listdir d)) dirs.

(** [convert_all(self)], lines 140-163. *)
Definition convert_all (input_dir : string) (out : gmap string string)
  : (nat * nat) * gmap string string :=
  let xml_files := glob_xml input_dir in
  let total_files := length xml_files in
  if (total_files =? 0)%nat then ((0, 0), out)%nat else
  let '(success_count, out') :=
    foldl (λ '(n, o) xml_file,
             let '(b, o') := convert_annotation xml_file o in
             (if b then S n else n, o'))
          (0%nat, out) xml_files in
  ((success_count, total_files), out').

(** A retained object, an object that the loop passes over. *)
Definition retained (obj : ET.Element) (cls_id : nat) (b : box) : Prop :=
  is_difficult py_int obj = Ok false
  ∧ ∃ name xmlbox,
      ET.find "name" obj = Some name
      ∧ index (ET.text name) classes = Ok cls_id
      ∧ ET.find "bndbox" obj = Some xmlbox
      ∧ corners xmlbox = Ok b.

Definition skipped (width height : Z) (obj : ET.Element) : Prop :=
  ∀ txt, convert_object width height obj txt = (Ok tt, txt).

End Converter.

End F64.

(** ** Concrete documents over binary64

    A decimal reading of [float(s)] into a float: [nan], [inf], [-inf],
    and an optional minus sign, digits and an optional fraction, rounded
    once to the nearest float (a fraction only when its digits make a
    number below [2^53]). A small [fnmatch] for one path component, with
    plain characters, [?], [*] and bracket sets of plain characters. *)
Module Sample64.

Import Sample.

Definition exact (n : Z) : float :=
  SF2Prim (binary_normalize prec emax n 0 false).

Definition unsigned_float64 (s : string) : option float :=
  match unsigned_float s with
  | Some (n # d) =>
      if (d =? 1)%positive then Some (exact n)
      else if (n <? 2 ^ 53)%Z && (Zpos d <? 2 ^ 53)%Z
           then Some (exact n / exact (Zpos d))%float
           else None
  | None => None
  end.

Definition dec_float (s : string) : option float :=
  if String.eqb s "nan" then Some nan
  else if String.eqb s "inf" then Some infinity
  else if String.eqb s "-inf" then Some neg_infinity
  else match s with
       | String "-" s' => PrimFloat.opp <$> unsigned_float64 s'
       | _ => unsigned_float64 s
       end.

(** A battery with a corner that reads as NaN, an object of a class that
    is not configured with a difficulty flag that is not an integer, and
    the text of a width too large for a float. *)
Definition nan_corner : ET.Element :=
  node "object" [leaf "name" "battery"; bndbox "nan" "0" "50" "50"].
Definition cup_bad_flag : ET.Element :=
  node "object"
    [leaf "name" "cup"; leaf "difficult" "abc"; bndbox "0" "0" "50" "50"].
Definition huge : string :=
  String "1" (String.string_of_list_ascii (List.repeat "0"%char 309)).

Definition convert (name : string) (doc : result ET.Element) :=
  F64.convert_annotation dec_int dec_float classes (name, doc) ∅.

(** The characters of a bracket set and what follows it. *)
Fixpoint bracket (s : string) : option (list ascii * string) :=
  match s with
  | "" => None
  | String "]" rest => Some ([], rest)
  | String c rest =>
      match bracket rest with
      | Some (cs, rest') => Some (c :: cs, rest')
      | None => None
      end
  end.

Fixpoint fnmatch_fuel (n : nat) (pat name : string) : bool :=
  match n with
  | O => false
  | S n =>
      let literal c pat' :=
        match name with
        | String c' name' => Ascii.eqb c c' && fnmatch_fuel n pat' name'
        | "" => false
        end in
      match pat with
      | "" => String.eqb name ""
      | String "*" pat' =>
          (fix star (s : string) : bool :=
             fnmatch_fuel n pat' s
             || match s with "" => false | String _ s' => star s' end) name
      | String "?" pat' =>
          match name with
          | String _ name' => fnmatch_fuel n pat' name'
          | "" => false
          end
      | String "[" pat' =>
          match bracket pat' with
          | Some (cs, rest) =>
              match name with
              | String c name' =>
                  existsb (Ascii.eqb c) cs && fnmatch_fuel n rest name'
              | "" => false
              end
          | None => literal "["%char pat'
          end
      | String c pat' => literal c pat'
      end
  end.

Definition fnmatch (pat name : string) : bool :=
  fnmatch_fuel (S (String.length pat)) pat name.

(** A working directory with two directories: [Annotations], the sample
    directory, and [in[1]], which holds one good annotation. *)
Definition directories : list string := ["Annotations"; "in[1]"].

Definition listdir (d : string) : list (string * result ET.Element) :=
  if String.eqb d "Annotations" then input_dir
  else if String.eqb d "in[1]"
       then [("a.xml", Ok (annotation [size_100_200; drug]))]
       else [].

Definition glob_dirs (pat : string) : list string :=
  filter (λ d, fnmatch pat d = true) directories.

Definition convert_all (input_dir : string) :=
  F64.convert_all dec_int dec_float classes listdir glob_dirs input_dir ∅.

End Sample64.

(** ** Predicates of the specification *)

(** Two boxes with equal rational components. *)
Definition box_eq (a b : box) : Prop :=
  let '(a0, a1, a2, a3) := a in
  let '(b0, b1, b2, b3) := b in
  (a0 == b0 ∧ a1 == b1 ∧ a2 == b2 ∧ a3 == b3)%Q.

(** The transform as the specification writes it. *)
Definition spec_transform (w h : Z) (b : box) : box :=
  let '(xmin, xmax, ymin, ymax) := b in
  (((xmin + xmax) / 2) / inject_Z w, ((ymin + ymax) / 2) / inject_Z h,
   (xmax - xmin) / inject_Z w, (ymax - ymin) / inject_Z h)%Q.



Section Records.

Variable py_int : string → option Z.
Variable py_float : string → option Q.
Variable classes : list string.

(** A class name (the text of a [name] element) that is in the class
    list. *)
Definition configured (cls : option string) : Prop :=
  ∃ c, cls = Some c ∧ c ∈ classes.

(** A retained object: not skipped as difficult (no flag, or an integer
    other than 1), with a name that is at position [cls_id] of the
    class list, and with a box whose four corners read as the numbers
    [b]. *)
Definition retained (obj : ET.Element) (cls_id : nat) (b : box) : Prop :=
  is_difficult py_int obj = Ok false
  ∧ ∃ name xmlbox,
      ET.find "name" obj = Some name
      ∧ index (ET.text name) classes = Ok cls_id
      ∧ ET.find "bndbox" obj = Some xmlbox
      ∧ corners py_float xmlbox = Ok b.

(** An object that the loop passes over: nothing is written, nothing is
    raised. *)
Definition skipped (width height : Z) (obj : ET.Element) : Prop :=
  ∀ txt, convert_object py_int py_float classes width height obj txt
         = (Ok tt, txt).

(** The size record of a tree reads as [width] and [height]. *)
Definition has_size (root : ET.Element) (width height : Z) : Prop :=
  ∃ size,
    ET.find "size" root = Some size
    ∧ ET.text_of (ET.find "width" size) ≫= int_ py_int = Ok width
    ∧ ET.text_of (ET.find "height" size) ≫= int_ py_int = Ok height.

End Records.

(** A decimal digit, and a string of decimal digits. *)
Definition is_decimal (c : ascii) : Prop :=
  (48 ≤ nat_of_ascii c ≤ 57)%nat.

Fixpoint all_decimal (s : string) : Prop :=
  match s with
  | "" => True
  | String c s' => is_decimal c ∧ all_decimal s'
  end.

(** The number that a string of decimal digits writes. *)
Definition decimal_value (s : string) : Z :=
  (fix go (acc : Z) (s : string) : Z :=
     match s with
     | "" => acc
     | String c s' => go (10 * acc + Z.of_nat (nat_of_ascii c - 48))%Z s'
     end) 0%Z s.

(** [s] writes the number [a] to six decimal places: a minus sign for a
    negative [a], the integer part in decimal, a point and six decimal
    digits, the number written being within half a unit of the sixth
    decimal of the magnitude of [a]. *)
Definition six_decimals (a : Q) (s : string) : Prop :=
  ∃ (ip : Z) (frac : string),
    s = (if Qle_bool 0 a then "" else "-") +:+ pretty ip +:+ "." +:+ frac
    ∧ (0 ≤ ip)%Z ∧ String.length frac = 6%nat ∧ all_decimal frac
    ∧ (Qabs (inject_Z (ip * 1000000 + decimal_value frac) - Qabs a * 1000000)
       <= 1 # 2)%Q.

(** The text of one field of a line for the float [f]: what is written
    for a value that is not a number, and for a number its sign, the
    integer part in decimal, a point and six decimal digits, within half
    a unit of the sixth decimal of the exact value of the float. *)
Definition field_text (f : float) (s : string) : Prop :=
  match Prim2SF f with
  | S754_nan => s = "nan"
  | S754_infinity sign => s = (if sign then "-inf" else "inf")
  | S754_zero sign => s = (if sign then "-" else "") +:+ "0.000000"
  | S754_finite sign m e =>
      ∃ (ip : Z) (frac : string),
        s = (if sign then "-" else "") +:+ pretty ip +:+ "." +:+ frac
        ∧ (0 ≤ ip)%Z ∧ String.length frac = 6%nat ∧ all_decimal frac
        ∧ (Qabs (inject_Z (ip * 1000000 + decimal_value frac)
                 - F64.magnitude m e * 1000000) <= 1 # 2)%Q
  end.



(** ** The coordinate transform *)

Lemma truediv_nonzero (a : Q) (n : Z) :
  n ≠ 0%Z → truediv a (inject_Z n) = Ok (a / inject_Z n)%Q.
Proof.
  intros Hn. unfold truediv.
  destruct (Qeq_bool (inject_Z n) 0) eqn:E; [|done].
  apply Qeq_bool_iff in E. unfold Qeq in E. simpl in E. lia.
Qed.

Lemma truediv_zero (a : Q) : truediv a (inject_Z 0) = Raise ZeroDivisionError.
Proof. reflexivity. Qed.

Lemma inject_Z_nonzero (n : Z) : n ≠ 0%Z → ¬ (inject_Z n == 0)%Q.
Proof. intros Hn E. unfold Qeq in E. simpl in E. lia. Qed.

Lemma convert_coordinates_nonzero (w h : Z) (xmin xmax ymin ymax : Q) :
  w ≠ 0%Z → h ≠ 0%Z →
  convert_coordinates (w, h) (xmin, xmax, ymin, ymax)
  = Ok ((xmin + xmax) / 2 * (1 / inject_Z w), (ymin + ymax) / 2 * (1 / inject_Z h),
        (xmax - xmin) * (1 / inject_Z w), (ymax - ymin) * (1 / inject_Z h))%Q.
Proof.
  intros Hw Hh. unfold convert_coordinates. simpl fst. simpl snd.
  rewrite (truediv_nonzero _ w Hw). simpl.
  rewrite (truediv_nonzero _ h Hh). reflexivity.
Qed.

(** A zero width or height raises [ZeroDivisionError]: no value is
    computed. *)
Lemma convert_coordinates_zero (w h : Z) (b : box) :
  w = 0%Z ∨ h = 0%Z → convert_coordinates (w, h) b = Raise ZeroDivisionError.
Proof.
  destruct b as [[[b0 b1] b2] b3]. unfold convert_coordinates. simpl fst. simpl snd.
  intros [-> | ->].
  - reflexivity.
  - unfold truediv. destruct (Qeq_bool (inject_Z w) 0); reflexivity.
Qed.

(** Out-of-range corners pass through: a box wider than the image has a
    normalised width above 1. *)
Example convert_coordinates_no_clamping :
  ∃ x y w h, convert_coordinates (100, 200)%Z (-10, 300, 50, 150)%Q = Ok (x, y, w, h)
             ∧ (w == 3.1)%Q ∧ (x == 1.45)%Q.
Proof. do 4 eexists. split; [reflexivity|]. split; reflexivity. Qed.






(** ** The loop over the objects *)

Lemma for_each_app {A} (body : A → io unit) (l1 l2 : list A) (txt : string) :
  for_each body (l1 ++ l2) txt
  = match for_each body l1 txt with
    | (Ok _, txt') => for_each body l2 txt'
    | (Raise e, txt') => (Raise e, txt')
    end.
Proof.
  revert txt. induction l1 as [|x l1 IH]; intros txt; [done|].
  simpl. unfold mbind, io_bind.
  destruct (body x txt) as [[[]|e] txt']; [apply IH|done].
Qed.

(** An element that the body passes over can be dropped from the list. *)
Lemma for_each_drop {A} (body : A → io unit) (l1 l2 : list A) (x : A) :
  (∀ txt, body x txt = (Ok tt, txt)) →
  ∀ txt, for_each body (l1 ++ x :: l2) txt = for_each body (l1 ++ l2) txt.
Proof.
  intros Hx txt. rewrite !for_each_app.
  destruct (for_each body l1 txt) as [[[]|e] txt']; [|done].
  simpl. unfold mbind, io_bind. by rewrite Hx.
Qed.

(** An element on which the body raises ends the loop. *)
Lemma for_each_raise {A} (body : A → io unit) (l1 l2 : list A) (x : A) (e : exn) :
  (∀ txt, body x txt = (Raise e, txt)) →
  ∀ txt, ∃ e', for_each body (l1 ++ x :: l2) txt
               = (Raise e', (for_each body l1 txt).2).
Proof.
  intros Hx txt. rewrite for_each_app.
  destruct (for_each body l1 txt) as [[[]|e'] txt']; [|by eexists].
  simpl. unfold mbind, io_bind. rewrite Hx. by eexists.
Qed.

Lemma for_each_skipped {A} (body : A → io unit) (l : list A) :
  Forall (λ x, ∀ txt, body x txt = (Ok tt, txt)) l →
  ∀ txt, for_each body l txt = (Ok tt, txt).
Proof.
  induction 1 as [|x l Hx _ IH]; intros txt; [done|].
  simpl. unfold mbind, io_bind. rewrite Hx. apply IH.
Qed.

(** ** Class identifiers *)

Lemma index_from_spec (i : nat) (c : string) (l : list string) (k : nat) :
  index_from i c l = Ok k →
  ∃ j, k = (i + j)%nat ∧ l !! j = Some c ∧ ∀ j', (j' < j)%nat → l !! j' ≠ Some c.
Proof.
  revert i. induction l as [|d l IH]; intros i; simpl; [done|].
  destruct (String.eqb d c) eqn:E.
  - apply String.eqb_eq in E as ->. intros [= <-].
    exists 0%nat. split; [lia|]. split; [done|]. intros; lia.
  - apply String.eqb_neq in E. intros H.
    destruct (IH _ H) as (j & -> & Hj & Hfirst).
    exists (S j). split; [lia|]. split; [done|].
    intros [|j'] Hlt; simpl; [congruence|]. apply Hfirst. lia.
Qed.

Lemma contains_elem_of (c : string) (l : list string) :
  contains (Some c) l = true ↔ c ∈ l.
Proof.
  simpl. rewrite existsb_exists. split.
  - intros (d & Hd & E). apply String.eqb_eq in E as ->.
    by apply list_elem_of_In.
  - intros H. exists c. split; [by apply list_elem_of_In|apply String.eqb_refl].
Qed.

Lemma contains_configured (classes : list string) (cls : option string) :
  contains cls classes = true ↔ configured classes cls.
Proof.
  unfold configured. destruct cls as [c|].
  - rewrite contains_elem_of. split.
    + intros H. by exists c.
    + by intros (c' & [= <-] & H).
  - simpl. split; [discriminate|]. by intros (c & [=] & _).
Qed.

Lemma index_from_contains (i : nat) (c : string) (l : list string) :
  contains (Some c) l = true ↔ ∃ k, index_from i c l = Ok k.
Proof.
  revert i. induction l as [|d l IH]; intros i; simpl.
  - split; [discriminate|]. intros [k Hk]. discriminate Hk.
  - rewrite (String.eqb_sym c d). destruct (String.eqb d c); simpl.
    + split; eauto.
    + apply IH.
Qed.

Lemma contains_index (cls : option string) (l : list string) :
  contains cls l = true → ∃ k, index cls l = Ok k.
Proof.
  destruct cls as [c|]; [|discriminate]. apply index_from_contains.
Qed.

Lemma index_contains (cls : option string) (l : list string) (k : nat) :
  index cls l = Ok k → contains cls l = true.
Proof.
  destruct cls as [c|]; [|done]. intros H.
  apply (index_from_contains 0). eauto.
Qed.

(** ** One object *)

Section Objects.

Variable py_int : string → option Z.
Variable py_float : string → option Q.
Variable classes : list string.

Local Abbreviation convert_object := (convert_object py_int py_float classes).
Local Abbreviation is_difficult := (is_difficult py_int).
Local Abbreviation corners := (corners py_float).
Local Abbreviation skipped := (skipped py_int py_float classes).
Local Abbreviation retained := (retained py_int py_float classes).

Ltac run := unfold convert_object, mbind, io_bind, mret, io_ret, io_lift, write.

Lemma is_difficult_flag (obj d : ET.Element) (t : string) (n : Z) :
  ET.find "difficult" obj = Some d → ET.text d = Some t → py_int t = Some n →
  is_difficult obj = Ok (n =? 1)%Z.
Proof.
  intros Hd Ht Hn. unfold is_difficult. rewrite Hd, Ht. simpl. by rewrite Hn.
Qed.

Lemma is_difficult_absent (obj : ET.Element) :
  ET.find "difficult" obj = None → is_difficult obj = Ok false.
Proof. intros Hd. unfold is_difficult. by rewrite Hd. Qed.

Lemma convert_object_difficult (w h : Z) (obj : ET.Element) :
  is_difficult obj = Ok true → skipped w h obj.
Proof. intros Hd txt. run. by rewrite Hd. Qed.

Lemma convert_object_flag_raises (w h : Z) (obj : ET.Element) (e : exn) :
  is_difficult obj = Raise e →
  ∀ txt, convert_object w h obj txt = (Raise e, txt).
Proof. intros Hd txt. run. by rewrite Hd. Qed.

Lemma convert_object_unknown_class (w h : Z) (obj name : ET.Element) :
  is_difficult obj = Ok false →
  ET.find "name" obj = Some name →
  contains (ET.text name) classes = false →
  skipped w h obj.
Proof. intros Hd Hn Hc txt. run. rewrite Hd, Hn. simpl. by rewrite Hc. Qed.

Lemma convert_object_nameless (w h : Z) (obj : ET.Element) :
  is_difficult obj = Ok false →
  ET.find "name" obj = None →
  ∀ txt, convert_object w h obj txt = (Raise AttributeError, txt).
Proof. intros Hd Hn txt. run. by rewrite Hd, Hn. Qed.

Lemma convert_object_boxless (w h : Z) (obj name : ET.Element) :
  is_difficult obj = Ok false →
  ET.find "name" obj = Some name →
  ET.find "bndbox" obj = None →
  skipped w h obj.
Proof.
  intros Hd Hn Hb txt. run. rewrite Hd, Hn, Hb. simpl.
  destruct (contains _ _) eqn:Hc; simpl; [|done].
  destruct (contains_index _ _ Hc) as [k Hk]. by rewrite Hk.
Qed.

Lemma convert_object_bad_corner (w h : Z) (obj name xmlbox : ET.Element) (e : exn) :
  is_difficult obj = Ok false →
  ET.find "name" obj = Some name →
  ET.find "bndbox" obj = Some xmlbox →
  corners xmlbox = Raise e → e = AttributeError ∨ e = ValueError →
  skipped w h obj.
Proof.
  intros Hd Hn Hb Hc He txt. run. rewrite Hd, Hn, Hb, Hc. simpl.
  destruct (contains _ _) eqn:Hc'; simpl; [|done].
  destruct (contains_index _ _ Hc') as [k Hk]. rewrite Hk.
  by destruct He as [-> | ->].
Qed.

Lemma convert_object_retained (w h : Z) (obj : ET.Element) (cls_id : nat) (b : box) :
  retained obj cls_id b →
  ∀ txt, convert_object w h obj txt
         = match convert_coordinates (w, h) b with
           | Ok n => (Ok tt, txt +:+ yolo_line cls_id n)
           | Raise e => (Raise e, txt)
           end.
Proof.
  intros (Hd & name & xmlbox & Hn & Hi & Hb & Hc) txt.
  run. rewrite Hd, Hn. simpl.
  rewrite (index_contains _ _ _ Hi), Hi, Hb, Hc. simpl.
  by destruct (convert_coordinates _ _).
Qed.

(** The three things the loop body can do with an object: pass over
    it, raise without writing, or treat it as retained. *)
Lemma convert_object_cases (w h : Z) (obj : ET.Element) :
  skipped w h obj
  ∨ (∃ e, ∀ txt, convert_object w h obj txt = (Raise e, txt))
  ∨ (∃ cls_id b, retained obj cls_id b).
Proof.
  destruct (is_difficult obj) as [[|]|e] eqn:Hd.
  - left. by apply convert_object_difficult.
  - destruct (ET.find "name" obj) as [name|] eqn:Hn.
    2: { right; left. exists AttributeError. by apply convert_object_nameless. }
    destruct (contains (ET.text name) classes) eqn:Hc.
    2: { left. by eapply convert_object_unknown_class. }
    destruct (contains_index _ _ Hc) as [k Hk].
    destruct (ET.find "bndbox" obj) as [xmlbox|] eqn:Hb.
    2: { left. by eapply convert_object_boxless. }
    destruct (corners xmlbox) as [b|e] eqn:Hcs.
    { right; right. exists k, b. split; [done|]. by exists name, xmlbox. }
    destruct e.
    1, 3: left; eapply convert_object_bad_corner; eauto.
    all: right; left; eexists; intros txt; run.
    all: rewrite Hd, Hn; simpl; rewrite Hc, Hk, Hb, Hcs; reflexivity.
  - right; left. exists e. by apply convert_object_flag_raises.
Qed.

(** With a zero width or height no object writes anything. *)
Lemma convert_object_zero (w h : Z) (obj : ET.Element) (txt : string) :
  w = 0%Z ∨ h = 0%Z → (convert_object w h obj txt).2 = txt.
Proof.
  intros Hz.
  destruct (convert_object_cases w h obj) as [H|[[e H]|(k & b & H)]].
  - by rewrite H.
  - by rewrite H.
  - rewrite (convert_object_retained w h _ _ _ H).
    by rewrite (convert_coordinates_zero w h b Hz).
Qed.

End Objects.

(** ** Six decimals *)

Lemma digit_code (n : Z) : nat_of_ascii (digit n) = (48 + Z.to_nat (n mod 10))%nat.
Proof.
  unfold digit. apply nat_ascii_embedding.
  pose proof (Z.mod_pos_bound n 10). lia.
Qed.

Lemma digit_decimal (n : Z) : is_decimal (digit n).
Proof.
  unfold is_decimal. rewrite digit_code.
  pose proof (Z.mod_pos_bound n 10). lia.
Qed.

Lemma six_digits_decimal (m : Z) :
  String.length (six_digits m) = 6%nat ∧ all_decimal (six_digits m).
Proof. split; [reflexivity|]. simpl. repeat split; apply digit_decimal. Qed.

Lemma six_digits_value (m : Z) :
  (0 ≤ m < 1000000)%Z → decimal_value (six_digits m) = m.
Proof.
  intros Hm. unfold decimal_value, six_digits. rewrite !digit_code.
  assert (E : ∀ k, Z.of_nat (48 + Z.to_nat (k mod 10) - 48) = (k mod 10)%Z).
  { intros k. pose proof (Z.mod_pos_bound k 10). lia. }
  rewrite !E. clear E.
  pose proof (Z.div_mod m 100000). pose proof (Z.mod_pos_bound m 100000).
  Z.to_euclidean_division_equations. lia.
Qed.

(** The rounded value is within a half of the number. *)
Lemma round_half_even_near (q : Q) :
  (Qabs (inject_Z (round_half_even q) - q) <= 1 # 2)%Q.
Proof.
  destruct q as [n d]. unfold round_half_even. simpl Qnum. simpl Qden.
  pose proof (Z.div_mod n (Z.pos d)) as Hdm.
  pose proof (Z.mod_pos_bound n (Z.pos d)) as Hr.
  set (f := (n / Z.pos d)%Z) in *. set (r := (n mod Z.pos d)%Z) in *.
  assert (Hn : n = (Z.pos d * f + r)%Z) by (apply Hdm; lia).
  assert (Hb : (0 ≤ r < Z.pos d)%Z) by (apply Hr; lia).
  clearbody f r. clear Hdm Hr.
  apply Qabs_Qle_condition.
  destruct (Z.compare_spec (2 * r) (Z.pos d)) as [E|E|E];
    [destruct (Z.even f)|..];
    unfold Qle, Qminus, Qplus, Qopp, inject_Z; simpl; nia.
Qed.

Lemma round_half_even_nonneg (q : Q) : (0 <= q)%Q → (0 ≤ round_half_even q)%Z.
Proof.
  destruct q as [n d]. unfold Qle, round_half_even. simpl. intros Hq.
  assert (0 ≤ n / Z.pos d)%Z by (apply Z.div_pos; lia).
  destruct (_ ?= _)%Z; [destruct (Z.even _)|..]; lia.
Qed.

(** The text [f'{a:.6f}'] is a sign, the decimal integer part, a point
    and six decimal digits; the number it writes is the nearest multiple
    of [10^-6] to the magnitude of [a]. *)
Lemma format6_shape (a : Q) :
  ∃ (sign : string) (ip fr : Z),
    format6 a = sign +:+ pretty ip +:+ "." +:+ six_digits fr
    ∧ (sign = if Qle_bool 0 a then "" else "-")
    ∧ (0 ≤ ip)%Z ∧ (0 ≤ fr < 1000000)%Z
    ∧ String.length (six_digits fr) = 6%nat ∧ all_decimal (six_digits fr)
    ∧ decimal_value (six_digits fr) = fr
    ∧ (Qabs (inject_Z (ip * 1000000 + fr) - Qabs a * 1000000) <= 1 # 2)%Q.
Proof.
  set (m := round_half_even (Qabs a * 1000000)).
  assert (Hm : (0 ≤ m)%Z).
  { apply round_half_even_nonneg. apply Qmult_le_0_compat; [apply Qabs_nonneg|done]. }
  exists (if Qle_bool 0 a then "" else "-"), (m / 1000000)%Z, (m mod 1000000)%Z.
  pose proof (Z.mod_pos_bound m 1000000) as Hfr.
  split; [reflexivity|]. split; [reflexivity|].
  split; [apply Z.div_pos; lia|]. split; [lia|].
  split; [apply six_digits_decimal|]. split; [apply six_digits_decimal|].
  split; [apply six_digits_value; lia|].
  replace (m / 1000000 * 1000000 + m mod 1000000)%Z with m
    by (pose proof (Z.div_mod m 1000000); lia).
  apply round_half_even_near.
Qed.

Lemma format6_six_decimals (a : Q) : six_decimals a (format6 a).
Proof.
  destruct (format6_shape a) as (sign & ip & fr & E & -> & Hip & Hfr & Hl & Hd & Hv & Hn).
  exists ip, (six_digits fr). rewrite Hv.
  split; [exact E|]. split; [exact Hip|]. split; [exact Hl|]. split; [exact Hd|exact Hn].
Qed.

Lemma append_assoc (s1 s2 s3 : string) : (s1 +:+ s2) +:+ s3 = s1 +:+ s2 +:+ s3.
Proof.
  induction s1 as [|c s1 IH]; [reflexivity|].
  change (String c ((s1 +:+ s2) +:+ s3) = String c (s1 +:+ s2 +:+ s3)).
  by rewrite IH.
Qed.

Lemma append_empty_r (s : string) : s +:+ "" = s.
Proof.
  induction s as [|c s IH]; [reflexivity|].
  change (String c (s +:+ "") = String c s). by rewrite IH.
Qed.

Lemma yolo_line_fields (cls_id : nat) (x y w h : Q) :
  yolo_line cls_id (x, y, w, h)
  = pretty cls_id +:+ " " +:+ format6 x +:+ " " +:+ format6 y +:+ " "
      +:+ format6 w +:+ " " +:+ format6 h +:+ newline.
Proof. unfold yolo_line. simpl String.concat. by rewrite !append_assoc. Qed.

(** ** Single-file conversion *)

Section Files.

Variable py_int : string → option Z.
Variable py_float : string → option Q.
Variable classes : list string.

Local Abbreviation convert_object := (convert_object py_int py_float classes).
Local Abbreviation convert_root := (convert_root py_int py_float classes).
Local Abbreviation convert_annotation := (convert_annotation py_int py_float classes).
Local Abbreviation convert_all := (convert_all py_int py_float classes).
Local Abbreviation is_difficult := (is_difficult py_int).
Local Abbreviation corners := (corners py_float).
Local Abbreviation skipped := (skipped py_int py_float classes).
Local Abbreviation retained := (retained py_int py_float classes).
Local Abbreviation has_size := (has_size py_int).

Lemma convert_root_sized (root : ET.Element) (w h : Z) (txt : string) :
has_size root w h →
convert_root root txt
= match for_each (convert_object w h) (ET.iter "object" root) txt with
  | (Ok _, txt') => (Ok true, txt')
  | (Raise e, txt') => (Raise e, txt')
  end.
Proof.
intros (size & Hs & Hw & Hh). unfold convert_root. rewrite Hs.
unfold mbind at 1, io_bind, io_lift. rewrite Hw.
unfold mbind at 1. rewrite Hh.
unfold mbind at 1. by destruct (for_each _ _ _) as [[[]|e] txt'].
Qed.

(** The conversion of a tree reads only its size record and its list of
  objects. *)
Lemma convert_annotation_objects (name : string) (root root' : ET.Element)
  (out : gmap string string) :
ET.find "size" root = ET.find "size" root' →
(∀ w h txt, for_each (convert_object w h) (ET.iter "object" root) txt
            = for_each (convert_object w h) (ET.iter "object" root') txt) →
convert_annotation (name, Ok root) out = convert_annotation (name, Ok root') out.
Proof.
intros Hs Ho. unfold convert_annotation. simpl.
assert (E : convert_root root "" = convert_root root' ""); [|by rewrite E].
unfold convert_root. rewrite <- Hs. destruct (ET.find "size" root); [|done].
unfold mbind, io_bind, io_lift.
destruct (result_bind _ _ _ (ET.text_of (ET.find "width" e))); [|done].
destruct (result_bind _ _ _ (ET.text_of (ET.find "height" e))); [|done].
by rewrite Ho.
Qed.

Lemma skipped_object_dropped (obj : ET.Element) :
(∀ w h, skipped w h obj) →
∀ name root root' (before after : list ET.Element) out,
  ET.find "size" root = ET.find "size" root' →
  ET.iter "object" root = (before ++ obj :: after)%list →
  ET.iter "object" root' = (before ++ after)%list →
  convert_annotation (name, Ok root) out = convert_annotation (name, Ok root') out.
Proof.
intros Hskip name root root' before after out Hs Hi Hi'.
apply convert_annotation_objects; [done|].
intros w h txt. rewrite Hi, Hi'. apply for_each_drop, Hskip.
Qed.

(** C5. An object record whose difficulty flag is 1 is skipped: the loop
  body writes no line for it, and the result and the output file of
  single-file conversion are those of the same file without that
  record. *)
Theorem difficult_object_skipped (obj flag : ET.Element) (t : string) :
ET.find "difficult" obj = Some flag → ET.text flag = Some t → py_int t = Some 1%Z →
(∀ w h, skipped w h obj)
∧ ∀ name root root' (before after : list ET.Element) out,
    ET.find "size" root = ET.find "size" root' →
    ET.iter "object" root = (before ++ obj :: after)%list →
    ET.iter "object" root' = (before ++ after)%list →
    convert_annotation (name, Ok root) out
    = convert_annotation (name, Ok root') out.
Proof.
intros Hf Ht Hn.
assert (Hskip : ∀ w h, skipped w h obj).
{ intros w h. apply convert_object_difficult.
  by rewrite (is_difficult_flag _ _ _ _ _ Hf Ht Hn). }
split; [done|]. by apply skipped_object_dropped.
Qed.

(** C6 (amended). An object whose class name is not in the class list
    never has a line written for it. When its difficulty flag is absent or
    an integer (so that the class test is reached or the object is
    skipped as difficult), the object is passed over without an
    exception: the result and the output file of single-file conversion
    are those of the same file without that record, a success when the
    rest of the file converts. *)
Theorem unknown_class_skipped (obj name : ET.Element) :
ET.find "name" obj = Some name → ¬ configured classes (ET.text name) →
(∀ w h txt, (convert_object w h obj txt).2 = txt)
∧ ∀ flag, is_difficult obj = Ok flag →
    (∀ w h, skipped w h obj)
    ∧ ∀ file root root' (before after : list ET.Element) out,
        ET.find "size" root = ET.find "size" root' →
        ET.iter "object" root = (before ++ obj :: after)%list →
        ET.iter "object" root' = (before ++ after)%list →
        convert_annotation (file, Ok root) out
        = convert_annotation (file, Ok root') out.
Proof.
intros Hn Hc.
assert (Hu : contains (ET.text name) classes = false).
{ destruct (contains _ _) eqn:E; [|done]. by apply contains_configured in E. }
assert (Hskip : ∀ flag, is_difficult obj = Ok flag → ∀ w h, skipped w h obj).
{ intros [|] Hd w h.
  - by apply convert_object_difficult.
  - by eapply convert_object_unknown_class. }
split.
- intros w h txt. destruct (is_difficult obj) as [flag|e] eqn:Hd.
  + by rewrite (Hskip flag eq_refl w h txt).
  + by rewrite (convert_object_flag_raises _ _ _ w h obj e Hd txt).
- intros flag Hd. split; [by apply (Hskip flag)|].
  apply skipped_object_dropped. by apply (Hskip flag).
Qed.

(** C10 (amended). An object record without a class-name subrecord that
  is not skipped as difficult makes single-file conversion fail for the
  whole file, and the output file keeps what the loop wrote for the
  objects before it. A known-class object without a bounding box, or
  with a corner that [float] rejects, is only skipped. *)
Theorem nameless_object_fails (obj : ET.Element) :
ET.find "name" obj = None → is_difficult obj ≠ Ok true →
(∀ file root (before after : list ET.Element) out,
   ET.iter "object" root = (before ++ obj :: after)%list →
   (convert_annotation (file, Ok root) out).1 = false
   ∧ ∀ w h, has_size root w h →
       (convert_annotation (file, Ok root) out).2
       = <[stem file +:+ ".txt" := (for_each (convert_object w h) before "").2]> out)
∧ (∀ w h obj' name xmlbox,
     is_difficult obj' = Ok false → ET.find "name" obj' = Some name →
     (ET.find "bndbox" obj' = None → skipped w h obj')
     ∧ (ET.find "bndbox" obj' = Some xmlbox →
        corners xmlbox = Raise ValueError → skipped w h obj')).
Proof.
intros Hn Hd. split.
- intros file root before after out Hi.
  assert (Hraise : ∃ e, ∀ w h txt, convert_object w h obj txt = (Raise e, txt)).
  { destruct (is_difficult obj) as [[|]|e] eqn:E; [done|..].
    - exists AttributeError. intros. by apply convert_object_nameless.
    - exists e. intros. by apply convert_object_flag_raises. }
  destruct Hraise as [e He].
  assert (Hsized : ∀ w h, has_size root w h →
            ∃ e', convert_root root ""
                  = (Raise e', (for_each (convert_object w h) before "").2)).
  { intros w h Hs. rewrite (convert_root_sized _ w h _ Hs), Hi.
    destruct (for_each_raise (convert_object w h) before after obj e (He w h) "")
      as [e' ->]. by exists e'. }
  split.
  + unfold convert_annotation. simpl.
    destruct (ET.find "size" root) as [size|] eqn:Hs.
    2: { unfold convert_root. by rewrite Hs. }
    destruct (ET.text_of (ET.find "width" size) ≫= int_ py_int) as [w|ew] eqn:Hw.
    2: { unfold convert_root. rewrite Hs. unfold mbind at 1, io_bind, io_lift.
         by rewrite Hw. }
    destruct (ET.text_of (ET.find "height" size) ≫= int_ py_int) as [h|eh] eqn:Hh.
    2: { unfold convert_root. rewrite Hs. unfold mbind at 1, io_bind, io_lift.
         rewrite Hw. unfold mbind at 1. by rewrite Hh. }
    destruct (Hsized w h) as [e' ->]; [by exists size|done].
  + intros w h Hs. unfold convert_annotation. simpl.
    by destruct (Hsized w h Hs) as [e' ->].
- intros w h obj' name xmlbox Hd' Hn'. split.
  + intros Hb. by eapply convert_object_boxless.
  + intros Hb Hc. eapply convert_object_bad_corner; eauto.
Qed.

Lemma for_each_ok {A} (body : A → io unit) (l : list A) (txt txt' : string) :
for_each body l txt = (Ok tt, txt') →
Forall (λ x, ∃ t t', body x t = (Ok tt, t')) l.
Proof.
revert txt. induction l as [|x l IH]; intros txt; [constructor|].
simpl. unfold mbind, io_bind.
destruct (body x txt) as [[[]|e] t'] eqn:E; [|done].
intros H. constructor; [by eauto|by eapply IH].
Qed.

Lemma for_each_zero (w h : Z) (objs : list ET.Element) (txt : string) :
w = 0%Z ∨ h = 0%Z → (for_each (convert_object w h) objs txt).2 = txt.
Proof.
intros Hz. revert txt. induction objs as [|obj objs IH]; intros txt; [done|].
simpl. unfold mbind, io_bind.
pose proof (convert_object_zero py_int py_float classes w h obj txt Hz) as E.
destruct (convert_object w h obj txt) as [[[]|e] t'];
  simpl in E; subst t'; [apply IH|done].
Qed.

Lemma convert_annotation_sized (file : string) (root : ET.Element) (w h : Z)
  (out : gmap string string) :
has_size root w h →
convert_annotation (file, Ok root) out
= (match (for_each (convert_object w h) (ET.iter "object" root) "").1 with
   | Ok _ => true
   | Raise _ => false
   end,
   <[stem file +:+ ".txt"
       := (for_each (convert_object w h) (ET.iter "object" root) "").2]> out).
Proof.
intros Hs. unfold convert_annotation. simpl.
rewrite (convert_root_sized _ w h _ Hs).
by destruct (for_each _ _ _) as [[[]|e] txt'].
Qed.

(** ** The output directory and the batch *)

Lemma convert_annotation_output (f : string * result ET.Element)
  (out : gmap string string) :
(convert_annotation f out).2
= match f.2 with
  | Raise _ => out
  | Ok root => <[stem f.1 +:+ ".txt" := (convert_root root "").2]> out
  end.
Proof.
unfold convert_annotation. destruct (f.2) as [root|e]; [|done].
by destruct (convert_root root "") as [[b|e] txt].
Qed.

(** Whether a file converts does not depend on the output directory. *)
Lemma convert_annotation_result (f : string * result ET.Element)
  (out out' : gmap string string) :
(convert_annotation f out).1 = (convert_annotation f out').1.
Proof.
unfold convert_annotation. destruct (f.2) as [root|e]; [|done].
by destruct (convert_root root "") as [[b|e] txt].
Qed.

Lemma written_lookup (files : list (string * result ET.Element))
  (out : gmap string string) (name : string) :
is_Some (foldl (λ o f, (convert_annotation f o).2) out files !! name)
↔ is_Some (out !! name)
  ∨ ∃ f root, f ∈ files ∧ f.2 = Ok root ∧ name = stem f.1 +:+ ".txt".
Proof.
revert out. induction files as [|f files IH]; intros out; simpl.
- split; [by left|]. intros [H|(f & root & Hin & _)]; [done|].
  by apply elem_of_nil in Hin.
- rewrite IH, convert_annotation_output. split.
  + intros [H|(g & root & Hin & Hg & Hn)].
    * destruct (f.2) as [root|e] eqn:E; [|by left].
      apply lookup_insert_is_Some in H as [<-|[_ H]]; [|by left].
      right. exists f, root. split; [apply list_elem_of_here|done].
    * right. exists g, root. split; [by apply list_elem_of_further|done].
  + intros [H|(g & root & Hin & Hg & Hn)].
    * left. destruct (f.2); [|done].
      apply lookup_insert_is_Some.
      destruct (decide (stem f.1 +:+ ".txt" = name)); auto.
    * apply elem_of_cons in Hin as [->|Hin].
      -- left. rewrite Hg, Hn. apply lookup_insert_is_Some. by left.
      -- right. by exists g, root.
Qed.

Lemma tally_fold (files : list (string * result ET.Element)) (n : nat)
  (out : gmap string string) :
foldl (λ '(n, o) xml_file,
         let '(b, o') := convert_annotation xml_file o in
         (if b then S n else n, o'))
      (n, out) files
= ((n + length (filter (λ f, (convert_annotation f ∅).1 = true) files))%nat,
   foldl (λ o f, (convert_annotation f o).2) out files).
Proof.
revert n out. induction files as [|f files IH]; intros n out; simpl.
- f_equal. lia.
- rewrite filter_cons.
  rewrite (convert_annotation_result f ∅ out).
  destruct (convert_annotation f out) as [[|] out'] eqn:E; simpl; rewrite IH.
  + f_equal. lia.
  + done.
Qed.

Lemma convert_all_fold (input_dir : list (string * result ET.Element))
  (out : gmap string string) :
convert_all input_dir out
= let xml_files := filter (λ f, matches_xml f.1 = true) input_dir in
  ((length (filter (λ f, (convert_annotation f ∅).1 = true) xml_files),
    length xml_files),
   foldl (λ o f, (convert_annotation f o).2) out xml_files).
Proof.
unfold convert_all.
destruct (filter _ input_dir) as [|f files]; [done|].
change (length (f :: files) =? 0)%nat with false. cbv iota zeta.
by rewrite tally_fold.
Qed.

(** C8 (amended). The output directory gets a [.txt] file, named after
  the stem of the input file, for each input file that parses as XML,
  and for no other: a file that does not parse leaves the directory as
  it is; a parsed file without a size record is a failure and leaves an
  empty output file; a parsed file all of whose objects are passed over
  is a success with an empty output file. After the batch on an empty
  output directory the files there are those of the matching input
  files that parse. *)
Theorem output_files :
(∀ f out,
   (convert_annotation f out).2
   = match f.2 with
     | Raise _ => out
     | Ok root => <[stem f.1 +:+ ".txt" := (convert_root root "").2]> out
     end)
∧ (∀ file root out,
     ET.find "size" root = None →
     convert_annotation (file, Ok root) out
     = (false, <[stem file +:+ ".txt" := ""]> out))
∧ (∀ file root out w h,
     has_size root w h → Forall (skipped w h) (ET.iter "object" root) →
     convert_annotation (file, Ok root) out
     = (true, <[stem file +:+ ".txt" := ""]> out))
∧ (∀ input_dir name,
     is_Some ((convert_all input_dir ∅).2 !! name)
     ↔ ∃ f root, f ∈ input_dir ∧ matches_xml f.1 = true
                 ∧ f.2 = Ok root ∧ name = stem f.1 +:+ ".txt").
Proof.
split; [apply convert_annotation_output|]. split; [|split].
- intros file root out Hs. unfold convert_annotation, convert_root. simpl.
  by rewrite Hs.
- intros file root out w h Hs Hall.
  rewrite (convert_annotation_sized _ _ w h _ Hs).
  by rewrite (for_each_skipped _ _ Hall).
- intros input_dir name.
  rewrite convert_all_fold. cbv zeta. simpl snd.
  rewrite written_lookup. split.
  + intros [H|(f & root & Hin & Hf & Hn)].
    * rewrite lookup_empty in H. by destruct H.
    * apply list_elem_of_filter in Hin as [Hm Hin]. by exists f, root.
  + intros (f & root & Hin & Hm & Hf & Hn). right. exists f, root.
    split; [by apply list_elem_of_filter|done].
Qed.

End Files.

(** ** The properties on concrete documents *)

Module Examples.

Import Sample.

Local Abbreviation convert_object := (convert_object dec_int dec_float classes).
Local Abbreviation retained := (retained dec_int dec_float classes).
Local Abbreviation has_size := (has_size dec_int).

Lemma drug_retained : retained drug 1 (10, 30, 50, 150)%Q.
Proof.
split; [reflexivity|].
exists (leaf "name" "drug"), (bndbox "10" "50" "30" "150").
repeat split; reflexivity.
Qed.

(** The line of the specification's example. *)
Example drug_line_written :
convert_object 100 200 drug "" = (Ok tt, drug_line).
Proof. reflexivity. Qed.

Lemma difficult_object_skipped_witness :
convert "a.xml" (Ok (annotation [size_100_200; drug; hard_drug; drug]))
= convert "a.xml" (Ok (annotation [size_100_200; drug; drug])).
Proof.
apply (proj2 (difficult_object_skipped dec_int dec_float classes
                hard_drug (leaf "difficult" "1") "1"
                eq_refl eq_refl eq_refl))
  with (before := [drug]) (after := [drug]); reflexivity.
Defined.

Lemma unknown_class_skipped_witness :
convert "a.xml" (Ok (annotation [size_100_200; drug; cup; drug]))
= convert "a.xml" (Ok (annotation [size_100_200; drug; drug])).
Proof.
assert (Hc : ¬ configured classes (ET.text (leaf "name" "cup"))).
{ intros Hc. apply contains_configured in Hc. discriminate Hc. }
apply (proj2 (proj2 (unknown_class_skipped dec_int dec_float classes
                       cup (leaf "name" "cup") eq_refl Hc) false eq_refl))
  with (before := [drug]) (after := [drug]); reflexivity.
Defined.

Lemma nameless_object_fails_witness :
let root := annotation [size_100_200; drug; nameless; drug] in
ET.find "name" nameless = None
∧ is_difficult dec_int nameless ≠ Ok true
∧ (convert "a.xml" (Ok root)).1 = false
∧ (convert "a.xml" (Ok root)).2 !! "a.txt" = Some drug_line.
Proof.
intros root.
assert (Hd : is_difficult dec_int nameless ≠ Ok true) by (intros [=]).
split; [reflexivity|]. split; [exact Hd|].
destruct (proj1 (nameless_object_fails dec_int dec_float classes
                   nameless eq_refl Hd)
            "a.xml" root [drug] [drug] ∅ eq_refl) as [Hfalse Hout].
split; [exact Hfalse|].
unfold convert. rewrite (Hout 100%Z 200%Z).
- reflexivity.
- exists size_100_200. repeat split; reflexivity.
Defined.

(** An object without a name that is marked difficult is passed over
  before its name is looked up: the file converts. *)
Lemma nameless_object_counterexample :
let root := annotation [size_100_200; hard_nameless; drug] in
hard_nameless ∈ ET.iter "object" root
∧ ET.find "name" hard_nameless = None
∧ (convert "a.xml" (Ok root)).1 = true
∧ (convert "a.xml" (Ok root)).2 !! "a.txt" = Some drug_line.
Proof.
intros root. split; [|by repeat split].
apply list_elem_of_here.
Qed.

(** An object without a box and an object with a corner that is not a
  number are passed over; the file converts. *)
Example boxless_and_bad_corner_skipped :
convert "a.xml" (Ok (annotation [size_100_200; boxless; bad_corner; drug]))
= convert "a.xml" (Ok (annotation [size_100_200; drug])).
Proof. reflexivity. Qed.

(** Negative dimensions are used as they are. *)
Example negative_size_converts :
convert_coordinates (-100, 200)%Z (10, 30, 50, 150)%Q
= Ok (-(1 # 5), 1 # 2, -(1 # 5), 1 # 2)%Q
∨ ∃ n, convert_coordinates (-100, 200)%Z (10, 30, 50, 150)%Q = Ok n
       ∧ box_eq n (-0.2, 0.5, -0.2, 0.5)%Q.
Proof. right. eexists. split; [reflexivity|]. repeat split; reflexivity. Qed.

Lemma output_files_witness :
(convert "c.xml" (Ok (annotation [drug]))).1 = false
∧ (convert "c.xml" (Ok (annotation [drug]))).2 !! "c.txt" = Some ""
∧ convert "d.xml" (Ok (annotation [size_100_200; hard_drug; cup]))
  = (true, <["d.txt" := ""]> ∅)
∧ is_Some ((convert_all dec_int dec_float classes input_dir ∅).2 !! "c.txt")
∧ ¬ is_Some ((convert_all dec_int dec_float classes input_dir ∅).2 !! "b.txt").
Proof.
destruct (output_files dec_int dec_float classes)
  as (_ & Hnosize & Hempty & Hbatch).
split; [|split; [|split; [|split]]].
- unfold convert. by rewrite (Hnosize "c.xml" (annotation [drug]) ∅ eq_refl).
- unfold convert. by rewrite (Hnosize "c.xml" (annotation [drug]) ∅ eq_refl).
- apply (Hempty "d.xml" _ ∅ 100%Z 200%Z).
  + exists size_100_200. repeat split; reflexivity.
  + constructor; [apply convert_object_difficult; reflexivity|].
    constructor; [|constructor].
    eapply convert_object_unknown_class; reflexivity.
- apply Hbatch. exists ("c.xml", Ok (annotation [drug])), (annotation [drug]).
  repeat split. unfold input_dir. do 3 apply list_elem_of_further.
  apply list_elem_of_here.
- intros H. apply Hbatch in H as (f & root & Hin & _ & Hf & Hn).
  unfold input_dir in Hin.
  repeat (apply elem_of_cons in Hin as [->|Hin]; [done|]).
  by apply elem_of_nil in Hin.
Defined.

(** A file without a size record fails, and its output file is there
  all the same, empty. *)
Lemma output_files_counterexample :
let root := annotation [drug] in
ET.find "size" root = None
∧ (convert "c.xml" (Ok root)).1 = false
∧ (convert "c.xml" (Ok root)).2 !! "c.txt" = Some "".
Proof. by repeat split. Qed.

End Examples.


(** ** More on the coordinate transform *)







(** ** More on the six decimals *)

Lemma round_half_even_floor (q : Q) :
  round_half_even q
  = match (q - inject_Z (Qfloor q) ?= 1 # 2)%Q with
    | Lt => Qfloor q
    | Gt => (Qfloor q + 1)%Z
    | Eq => if Z.even (Qfloor q) then Qfloor q else (Qfloor q + 1)%Z
    end.
Proof.
  destruct q as [n d]. unfold round_half_even, Qfloor, Qcompare. simpl.
  replace ((n * 1 + - (n / Z.pos d) * Z.pos d) * 2)%Z with (2 * (n mod Z.pos d))%Z
    by (rewrite Z.mod_eq by lia; lia).
  by replace (Z.pos (d * 1)) with (Z.pos d) by lia.
Qed.

(** The rounding depends on the value of the rational only. *)
Lemma round_half_even_comp (q q' : Q) :
  (q == q')%Q → round_half_even q = round_half_even q'.
Proof.
  intros E. rewrite !round_half_even_floor.
  rewrite (Qfloor_comp _ _ E).
  assert (E' : (q - inject_Z (Qfloor q') == q' - inject_Z (Qfloor q'))%Q)
    by (rewrite E; reflexivity).
  by rewrite (Qcompare_comp _ _ E' _ _ (Qeq_refl _)).
Qed.

Lemma round_half_even_integer (k : Z) : round_half_even (inject_Z k) = k.
Proof.
  unfold round_half_even. simpl. rewrite Z.mod_1_r, Z.div_1_r. reflexivity.
Qed.

Lemma format6_comp (a a' : Q) : (a == a')%Q → format6 a = format6 a'.
Proof.
  intros E. unfold format6.
  assert (E1 : (Qabs a * 1000000 == Qabs a' * 1000000)%Q) by (by rewrite E).
  rewrite (round_half_even_comp _ _ E1).
  assert (E2 : Qle_bool 0 a = Qle_bool 0 a'); [|by rewrite E2].
  destruct (Qle_bool 0 a) eqn:H, (Qle_bool 0 a') eqn:H'; try done.
  - apply Qle_bool_iff in H. rewrite E in H. apply Qle_bool_iff in H. congruence.
  - apply Qle_bool_iff in H'. rewrite <- E in H'. apply Qle_bool_iff in H'. congruence.
Qed.


(** X5. A non-negative value with at most six decimals, [k / 10^6], is
    written exactly: the integer part of [k / 10^6] and the six digits of
    the rest. *)
Theorem format6_exact (a : Q) (k : Z) :
  (0 ≤ k)%Z → (a * 1000000 == inject_Z k)%Q →
  format6 a = pretty (k / 1000000)%Z +:+ "." +:+ six_digits (k mod 1000000)
  ∧ decimal_value (six_digits (k mod 1000000)) = (k mod 1000000)%Z.
Proof.
  intros Hk E.
  assert (H0 : (0 <= a)%Q).
  { assert (Hk' : (0 <= inject_Z k)%Q) by (unfold Qle; simpl; lia).
    rewrite <- E in Hk'. lra. }
  split.
  - unfold format6.
    assert (Ha : (Qabs a * 1000000 == inject_Z k)%Q) by (by rewrite Qabs_pos).
    rewrite (round_half_even_comp _ _ Ha), round_half_even_integer.
    apply Qle_bool_iff in H0. by rewrite H0.
  - apply six_digits_value. apply Z.mod_pos_bound. lia.
Qed.

Lemma format6_exact_witness :
  format6 (123456789 # 1000)
  = pretty (123456789000 / 1000000)%Z +:+ "."
      +:+ six_digits (123456789000 mod 1000000)
  ∧ decimal_value (six_digits (123456789000 mod 1000000))
    = (123456789000 mod 1000000)%Z.
Proof.
  apply (format6_exact (123456789 # 1000) 123456789000); [lia|reflexivity].
Defined.

(** ** More on class identifiers *)

(** X6. The identifier of a class name is a position of the class list
    that holds that name, so two names with one identifier are the same
    name; the names with an identifier are the names of the list; and in
    a list without duplicates every position is the identifier of its
    name. *)
Theorem class_ids (classes : list string) :
  (∀ c k, index (Some c) classes = Ok k →
          (k < length classes)%nat ∧ classes !! k = Some c)
  ∧ (∀ c c' k, index (Some c) classes = Ok k →
               index (Some c') classes = Ok k → c = c')
  ∧ (∀ c, c ∈ classes ↔ ∃ k, index (Some c) classes = Ok k)
  ∧ (NoDup classes →
     ∀ k c, classes !! k = Some c → index (Some c) classes = Ok k).
Proof.
  assert (Hpos : ∀ c k, index (Some c) classes = Ok k → classes !! k = Some c).
  { intros c k H. by destruct (index_from_spec _ _ _ _ H) as (j & -> & Hj & _). }
  assert (Hmem : ∀ c, c ∈ classes ↔ ∃ k, index (Some c) classes = Ok k).
  { intros c. rewrite <- contains_elem_of. apply index_from_contains. }
  split; [|split; [|split]].
  - intros c k H. split; [|by apply Hpos].
    apply Hpos in H. by apply lookup_lt_Some in H.
  - intros c c' k H H'. apply Hpos in H, H'. congruence.
  - exact Hmem.
  - intros Hnd k c Hk.
    assert (Hin : c ∈ classes) by (apply list_elem_of_lookup; eauto).
    apply Hmem in Hin as [k' Hk']. rewrite Hk'. f_equal.
    eapply NoDup_lookup; [done|by apply Hpos|done].
Qed.

Lemma class_ids_witness :
  NoDup Sample.classes ∧ index (Some "plastic") Sample.classes = Ok 2%nat.
Proof.
  assert (Hnd : NoDup Sample.classes).
  { apply (bool_decide_unpack _). reflexivity. }
  split; [exact Hnd|].
  apply (proj2 (proj2 (proj2 (class_ids Sample.classes))) Hnd 2%nat "plastic").
  reflexivity.
Defined.

(** ** More on single-file conversion *)

Lemma concat_empty_cons (x : string) (l : list string) :
  String.concat "" (x :: l) = x +:+ String.concat "" l.
Proof. destruct l as [|y l]; [by rewrite append_empty_r|reflexivity]. Qed.

Lemma for_each_all_ok {A} (body : A → io unit) (l : list A) :
  Forall (λ x, ∀ txt, ∃ txt', body x txt = (Ok tt, txt')) l →
  ∀ txt, ∃ txt', for_each body l txt = (Ok tt, txt').
Proof.
  induction 1 as [|x l Hx _ IH]; intros txt; [by exists txt|].
  simpl. unfold mbind, io_bind. destruct (Hx txt) as [txt' ->]. apply IH.
Qed.

Section MoreFiles.

Variable py_int : string → option Z.
Variable py_float : string → option Q.
Variable classes : list string.

Local Abbreviation convert_object := (convert_object py_int py_float classes).
Local Abbreviation convert_root := (convert_root py_int py_float classes).
Local Abbreviation convert_annotation := (convert_annotation py_int py_float classes).
Local Abbreviation convert_all := (convert_all py_int py_float classes).
Local Abbreviation is_difficult := (is_difficult py_int).
Local Abbreviation corners := (corners py_float).
Local Abbreviation skipped := (skipped py_int py_float classes).
Local Abbreviation retained := (retained py_int py_float classes).
Local Abbreviation has_size := (has_size py_int).
Local Abbreviation object_text := (object_text py_int py_float classes).

Lemma convert_object_append (w h : Z) (obj : ET.Element) (txt : string) :
  convert_object w h obj txt
  = ((convert_object w h obj "").1, txt +:+ object_text w h obj).
Proof.
  unfold object_text.
  destruct (convert_object_cases py_int py_float classes w h obj)
    as [H|[[e H]|(k & b & H)]].
  - by rewrite (H txt), (H ""), append_empty_r.
  - by rewrite (H txt), (H ""), append_empty_r.
  - rewrite !(convert_object_retained _ _ _ w h _ _ _ H).
    destruct (convert_coordinates (w, h) b); simpl; [done|].
    by rewrite append_empty_r.
Qed.

Lemma for_each_text (w h : Z) (objs : list ET.Element) (txt txt' : string) :
  for_each (convert_object w h) objs txt = (Ok tt, txt') →
  txt' = txt +:+ String.concat "" (map (object_text w h) objs).
Proof.
  revert txt. induction objs as [|obj objs IH]; intros txt.
  - simpl. intros [= <-]. by rewrite append_empty_r.
  - simpl for_each. unfold mbind, io_bind. rewrite convert_object_append.
    destruct (convert_object w h obj "").1 as [[]|e]; [|done].
    intros H. apply IH in H. rewrite H, append_assoc.
    by rewrite map_cons, concat_empty_cons.
Qed.

(** X7. The loop body only appends: what an object does and what it
    writes do not depend on the text written before it. The text of a
    converted file is what its objects write, one after the other in
    document order. *)
Theorem output_in_document_order :
  (∀ w h obj txt,
     convert_object w h obj txt
     = ((convert_object w h obj "").1, txt +:+ object_text w h obj))
  ∧ (∀ file root out w h,
       has_size root w h →
       (convert_annotation (file, Ok root) out).1 = true →
       (convert_annotation (file, Ok root) out).2 !! (stem file +:+ ".txt")
       = Some (String.concat ""
                 (map (object_text w h) (ET.iter "object" root)))).
Proof.
  split; [apply convert_object_append|].
  intros file root out w h Hs. rewrite (convert_annotation_sized _ _ _ _ _ w h _ Hs).
  simpl. destruct (for_each _ _ _) as [[[]|e] txt'] eqn:E; [|done].
  intros _. simpl. rewrite lookup_insert_eq. f_equal.
  by apply for_each_text in E.
Qed.

Lemma convert_annotation_true (file : string) (root : ET.Element)
    (out : gmap string string) :
  (convert_annotation (file, Ok root) out).1 = true →
  ∃ w h,
    has_size root w h
    ∧ Forall (λ obj, skipped w h obj
                     ∨ (w ≠ 0%Z ∧ h ≠ 0%Z ∧ ∃ k b, retained obj k b))
        (ET.iter "object" root).
Proof.
  intros Hok. unfold convert_annotation in Hok. simpl in Hok.
  destruct (ET.find "size" root) as [size|] eqn:Hs.
  2: { unfold convert_root in Hok. by rewrite Hs in Hok. }
  destruct (ET.text_of (ET.find "width" size) ≫= int_ py_int) as [w|ew] eqn:Hw.
  2: { unfold convert_root in Hok. rewrite Hs in Hok.
       unfold mbind at 1, io_bind, io_lift in Hok. by rewrite Hw in Hok. }
  destruct (ET.text_of (ET.find "height" size) ≫= int_ py_int) as [h|eh] eqn:Hh.
  2: { unfold convert_root in Hok. rewrite Hs in Hok.
       unfold mbind at 1, io_bind, io_lift in Hok. rewrite Hw in Hok.
       unfold mbind at 1 in Hok. by rewrite Hh in Hok. }
  assert (Hsz : has_size root w h) by (by exists size).
  exists w, h. split; [done|].
  rewrite (convert_root_sized _ _ _ _ w h _ Hsz) in Hok.
  destruct (for_each _ _ _) as [[[]|e] txt'] eqn:E; [|done].
  apply for_each_ok in E. eapply Forall_impl; [exact E|].
  intros obj (t & t' & Ht). simpl in Ht.
  destruct (convert_object_cases py_int py_float classes w h obj)
    as [H|[[e H]|(k & b & H)]]; [by left|by rewrite H in Ht|].
  right. rewrite (convert_object_retained _ _ _ w h _ _ _ H) in Ht.
  destruct (decide (w = 0%Z)) as [->|Hw0].
  { by rewrite (convert_coordinates_zero 0 h b) in Ht; [|left]. }
  destruct (decide (h = 0%Z)) as [->|Hh0].
  { by rewrite (convert_coordinates_zero w 0 b) in Ht; [|right]. }
  split; [done|]. split; [done|]. by exists k, b.
Qed.

(** A file with an object on which the loop body raises does not
    convert. *)
Lemma raising_object_fails (obj : ET.Element) :
  (∀ w h, ∃ e, ∀ txt, convert_object w h obj txt = (Raise e, txt)) →
  ∀ file root out,
    obj ∈ ET.iter "object" root →
    (convert_annotation (file, Ok root) out).1 = false.
Proof.
  intros Hraise file root out Hin.
  apply not_true_is_false. intros Hok.
  apply convert_annotation_true in Hok as (w & h & _ & Hall).
  rewrite Forall_forall in Hall.
  destruct (Hraise w h) as [e He].
  destruct (Hall obj Hin) as [H|(Hw & Hh & k & b & H)].
  - specialize (H ""). by rewrite He in H.
  - specialize (He ""). rewrite (convert_object_retained _ _ _ w h _ _ _ H) in He.
    destruct b as [[[b0 b1] b2] b3].
    by rewrite convert_coordinates_nonzero in He.
Qed.

(** The corner [c] of a box as the converter reads it. *)
Local Abbreviation read_corner c xmlbox :=
  (ET.text_of (ET.find c xmlbox) ≫= float_ py_float).

Lemma corners_first_defect (xmlbox : ET.Element) (i : nat) (c : string) (e : exn) :
  corner_names !! i = Some c →
  (∀ j c', (j < i)%nat → corner_names !! j = Some c' →
           ∃ a, read_corner c' xmlbox = Ok a) →
  read_corner c xmlbox = Raise e →
  corners xmlbox = Raise e.
Proof.
  intros Hi Hprev He. unfold corners.
  destruct i as [|[|[|[|i]]]]; simpl in Hi; [..|done]; injection Hi as <-.
  - by rewrite He.
  - destruct (Hprev 0%nat "xmin") as [a0 ->]; [lia|done|]. by rewrite He.
  - destruct (Hprev 0%nat "xmin") as [a0 ->]; [lia|done|].
    destruct (Hprev 1%nat "xmax") as [a1 ->]; [lia|done|]. by rewrite He.
  - destruct (Hprev 0%nat "xmin") as [a0 ->]; [lia|done|].
    destruct (Hprev 1%nat "xmax") as [a1 ->]; [lia|done|].
    destruct (Hprev 2%nat "ymin") as [a2 ->]; [lia|done|]. by rewrite He.
Qed.

(** X9. For an object of a configured class that is not skipped as
    difficult, the first corner, in the order xmin, xmax, ymin, ymax,
    that does not read as a number decides: when its element is missing
    or its text is not a number the object is passed over; when its
    element is there without text, [float(None)] raises a [TypeError]
    that the inner handler does not catch, and no file with this object
    converts. *)
Theorem first_bad_corner (obj name xmlbox : ET.Element) (i : nat) (c : string) :
  is_difficult obj = Ok false →
  ET.find "name" obj = Some name → configured classes (ET.text name) →
  ET.find "bndbox" obj = Some xmlbox →
  corner_names !! i = Some c →
  (∀ j c', (j < i)%nat → corner_names !! j = Some c' →
           ∃ a, read_corner c' xmlbox = Ok a) →
  (ET.find c xmlbox = None → ∀ w h, skipped w h obj)
  ∧ (∀ e t, ET.find c xmlbox = Some e → ET.text e = Some t →
            py_float t = None → ∀ w h, skipped w h obj)
  ∧ (∀ e, ET.find c xmlbox = Some e → ET.text e = None →
          (∀ w h txt, convert_object w h obj txt = (Raise TypeError, txt))
          ∧ ∀ file root out,
              obj ∈ ET.iter "object" root →
              (convert_annotation (file, Ok root) out).1 = false).
Proof.
  intros Hd Hn Hc Hb Hi Hprev.
  apply contains_configured in Hc.
  split; [|split].
  - intros Hf w h. eapply convert_object_bad_corner; [done..| |by left].
    apply (corners_first_defect _ i c); [done..|]. by rewrite Hf.
  - intros e t Hf Ht Hp w h. eapply convert_object_bad_corner; [done..| |by right].
    apply (corners_first_defect _ i c); [done..|]. rewrite Hf.
    unfold ET.text_of, mbind, result_bind, float_. by rewrite Ht, Hp.
  - intros e Hf Ht.
    assert (Hcs : corners xmlbox = Raise TypeError).
    { apply (corners_first_defect _ i c); [done..|]. rewrite Hf.
      unfold ET.text_of, mbind, result_bind, float_. by rewrite Ht. }
    assert (Hr : ∀ w h txt, convert_object w h obj txt = (Raise TypeError, txt)).
    { intros w h txt. unfold convert_object, mbind, io_bind, mret, io_ret, io_lift.
      rewrite Hd, Hn. simpl. rewrite Hc.
      destruct (contains_index _ _ Hc) as [k ->]. by rewrite Hb, Hcs. }
    split; [done|]. apply raising_object_fails. intros w h. exists TypeError. apply Hr.
Qed.

(** X10. Only the integer 1 marks an object as difficult: with any other
    integer the object is not skipped for that. A difficulty flag without
    text, or with a text that is not an integer, raises in [int], and no
    file with such an object converts. *)
Theorem difficult_flag_values (obj flag : ET.Element) :
  ET.find "difficult" obj = Some flag →
  (∀ t n, ET.text flag = Some t → py_int t = Some n → n ≠ 1%Z →
          is_difficult obj = Ok false)
  ∧ ((ET.text flag = None ∨ ∃ t, ET.text flag = Some t ∧ py_int t = None) →
     (∃ e, ∀ w h txt, convert_object w h obj txt = (Raise e, txt))
     ∧ ∀ file root out,
         obj ∈ ET.iter "object" root →
         (convert_annotation (file, Ok root) out).1 = false).
Proof.
  intros Hf. split.
  - intros t n Ht Hn Hne. rewrite (is_difficult_flag _ _ _ _ _ Hf Ht Hn).
    f_equal. by apply Z.eqb_neq.
  - intros Hbad.
    assert (Hr : ∃ e, is_difficult obj = Raise e).
    { unfold is_difficult. rewrite Hf.
      destruct Hbad as [->|(t & -> & Hp)]; simpl; [by eexists|].
      rewrite Hp. by eexists. }
    destruct Hr as [e He].
    assert (Hall : ∀ w h txt, convert_object w h obj txt = (Raise e, txt)).
    { intros w h. by apply convert_object_flag_raises. }
    split; [by exists e|].
    apply raising_object_fails. intros w h. exists e. apply Hall.
Qed.

(** X11. Single-file conversion touches one file of the output
    directory only, the one named after the stem of its input; what that
    file held before is lost; converting a file again changes nothing. *)
Theorem convert_annotation_frame (f : string * result ET.Element)
    (out : gmap string string) :
  (∀ name, name ≠ stem f.1 +:+ ".txt" →
           (convert_annotation f out).2 !! name = out !! name)
  ∧ (∀ root old, f.2 = Ok root →
       convert_annotation f (<[stem f.1 +:+ ".txt" := old]> out)
       = convert_annotation f out)
  ∧ convert_annotation f (convert_annotation f out).2 = convert_annotation f out.
Proof.
  split; [|split].
  - intros name Hne. rewrite convert_annotation_output.
    destruct (f.2); [|done]. by rewrite lookup_insert_ne.
  - intros root old Hf. unfold convert_annotation. rewrite Hf.
    destruct (convert_root root "") as [[b|e] txt]; by rewrite insert_insert_eq.
  - unfold convert_annotation. destruct (f.2) as [root|e]; [|done].
    destruct (convert_root root "") as [[b|e] txt]; simpl;
      by rewrite insert_insert_eq.
Qed.

End MoreFiles.


(** ** File names *)

Lemma length_append (s t : string) :
  String.length (s +:+ t) = (String.length s + String.length t)%nat.
Proof.
  induction s as [|c s IH]; [reflexivity|].
  change (S (String.length (s +:+ t)) = S (String.length s + String.length t)).
  by rewrite IH.
Qed.

Lemma append_inj_r (s s' t : string) : s +:+ t = s' +:+ t → s = s'.
Proof.
  revert s'. induction s as [|c s IH]; intros [|c' s'] E.
  - done.
  - apply (f_equal String.length) in E. rewrite !length_append in E.
    simpl in E. lia.
  - apply (f_equal String.length) in E. rewrite !length_append in E.
    simpl in E. lia.
  - change (String c (s +:+ t) = String c' (s' +:+ t)) in E.
    injection E as -> E. f_equal. by apply IH.
Qed.

Lemma substring_whole (s : string) (m : nat) :
  (String.length s ≤ m)%nat → String.substring 0 m s = s.
Proof.
  revert m. induction s as [|c s IH]; intros [|m] Hm; simpl in *; try done.
  - lia.
  - f_equal. apply IH. lia.
Qed.

Lemma substring_split (s : string) (k : nat) :
  String.substring 0 k s +:+ String.substring k (String.length s - k) s = s.
Proof.
  revert k. induction s as [|c s IH]; intros [|k]; try reflexivity.
  - change (String.substring 0 (String.length (String c s) - 0) (String c s)
            = String c s).
    apply substring_whole. lia.
  - change (String c (String.substring 0 k s
                      +:+ String.substring k (String.length s - k) s)
            = String c s).
    by rewrite IH.
Qed.

Lemma stem_xml (name : string) :
  matches_xml name = true → name = stem name +:+ ".xml".
Proof.
  intros Hm. unfold matches_xml in Hm.
  apply andb_prop in Hm as [_ Hm]. apply String.eqb_eq in Hm.
  pose proof (substring_split name (String.length name - 4)) as Hsplit.
  destruct (decide (4 ≤ String.length name)%nat) as [Hlen|Hlen].
  - replace (String.length name - (String.length name - 4))%nat with 4%nat
      in Hsplit by lia.
    rewrite Hm in Hsplit. unfold stem. by rewrite Hsplit.
  - replace (String.length name - 4)%nat with 0%nat in Hm by lia.
    rewrite substring_whole in Hm by lia. subst name. simpl in Hlen. lia.
Qed.

Lemma output_name_inj (f g : string * result ET.Element) :
  matches_xml f.1 = true → matches_xml g.1 = true →
  output_name f = output_name g → f.1 = g.1.
Proof.
  intros Hf Hg E. apply append_inj_r in E.
  rewrite (stem_xml _ Hf), (stem_xml _ Hg). by rewrite E.
Qed.

(** X12. A name that the batch picks is its stem followed by [.xml], and
    its output file is the stem followed by [.txt]; two different names
    that the batch picks have different output files. *)
Theorem output_names (name : string) :
  matches_xml name = true →
  name = stem name +:+ ".xml"
  ∧ ∀ name', matches_xml name' = true →
             stem name +:+ ".txt" = stem name' +:+ ".txt" → name = name'.
Proof.
  intros Hm. split; [by apply stem_xml|].
  intros name' Hm' E.
  apply (output_name_inj (name, Raise ParseError) (name', Raise ParseError));
    done.
Qed.

Lemma output_names_witness :
  "img_001.xml" = stem "img_001.xml" +:+ ".xml"
  ∧ ∀ name', matches_xml name' = true →
             stem "img_001.xml" +:+ ".txt" = stem name' +:+ ".txt" →
             "img_001.xml" = name'.
Proof. apply (output_names "img_001.xml"). reflexivity. Defined.

(** ** More on the batch *)

Section Batch.

Variable py_int : string → option Z.
Variable py_float : string → option Q.
Variable classes : list string.

Local Abbreviation convert_root := (convert_root py_int py_float classes).
Local Abbreviation convert_annotation := (convert_annotation py_int py_float classes).
Local Abbreviation convert_all := (convert_all py_int py_float classes).
Local Abbreviation written :=
  (foldl (λ o f, (convert_annotation f o).2)).
Local Abbreviation picked :=
  (filter (λ f : string * result ET.Element, matches_xml f.1 = true)).

Lemma written_untouched (files : list (string * result ET.Element))
    (out : gmap string string) (name : string) :
  (∀ f root, f ∈ files → f.2 = Ok root → output_name f ≠ name) →
  written out files !! name = out !! name.
Proof.
  revert out. induction files as [|f files IH]; intros out Hne; [done|].
  simpl. rewrite IH.
  - rewrite convert_annotation_output. destruct (f.2) as [root|e] eqn:E; [|done].
    apply lookup_insert_ne. apply (Hne f root); [apply list_elem_of_here|done].
  - intros g root Hin. apply Hne. by apply list_elem_of_further.
Qed.

Lemma written_content (files : list (string * result ET.Element))
    (out : gmap string string) (f : string * result ET.Element)
    (root : ET.Element) :
  NoDup (output_name <$> files) → f ∈ files → f.2 = Ok root →
  written out files !! output_name f = Some (convert_root root "").2.
Proof.
  revert out. induction files as [|g files IH]; intros out Hnd Hin Hf.
  { by apply elem_of_nil in Hin. }
  rewrite fmap_cons in Hnd. apply NoDup_cons in Hnd as [Hg Hnd].
  simpl. apply elem_of_cons in Hin as [<-|Hin]; [|by apply IH].
  rewrite written_untouched.
  - rewrite convert_annotation_output, Hf. apply lookup_insert_eq.
  - intros g root' Hin _ E. apply Hg. rewrite <- E.
    by apply list_elem_of_fmap_2.
Qed.

Lemma picked_output_names (input_dir : list (string * result ET.Element)) :
  NoDup input_dir.*1 → NoDup (output_name <$> picked input_dir).
Proof.
  induction input_dir as [|f l IH]; intros Hnd; [constructor|].
  rewrite fmap_cons in Hnd. apply NoDup_cons in Hnd as [Hf Hnd].
  rewrite filter_cons. case_decide as Hm; [|by apply IH].
  rewrite fmap_cons. apply NoDup_cons. split; [|by apply IH].
  intros Hin. apply list_elem_of_fmap in Hin as (g & E & Hg).
  apply list_elem_of_filter in Hg as [Hmg Hg].
  apply Hf. symmetry in E. apply output_name_inj in E; [|done..].
  rewrite <- E. by apply list_elem_of_fmap_2.
Qed.

(** X13. After the batch on a directory (whose names are all different),
    the output file of every picked input file that parses holds the
    text of that file's conversion, whatever the other files are; every
    other file of the output directory is as it was before. *)
Theorem convert_all_outputs (input_dir : list (string * result ET.Element))
    (out : gmap string string) :
  NoDup input_dir.*1 →
  (∀ f root,
     f ∈ input_dir → matches_xml f.1 = true → f.2 = Ok root →
     (convert_all input_dir out).2 !! (stem f.1 +:+ ".txt")
     = Some (convert_root root "").2)
  ∧ (∀ name,
       (∀ f root, f ∈ input_dir → matches_xml f.1 = true → f.2 = Ok root →
                  stem f.1 +:+ ".txt" ≠ name) →
       (convert_all input_dir out).2 !! name = out !! name).
Proof.
  intros Hnd. rewrite convert_all_fold. cbv zeta. simpl snd. split.
  - intros f root Hin Hm Hf.
    apply (written_content _ _ f root); [by apply picked_output_names| |done].
    by apply list_elem_of_filter.
  - intros name Hne. apply written_untouched.
    intros f root Hin Hf. apply list_elem_of_filter in Hin as [Hm Hin].
    by apply (Hne f root).
Qed.

Lemma written_swap (f g : string * result ET.Element) (out : gmap string string) :
  output_name f ≠ output_name g →
  (convert_annotation g (convert_annotation f out).2).2
  = (convert_annotation f (convert_annotation g out).2).2.
Proof.
  intros Hne. rewrite !convert_annotation_output.
  destruct (f.2), (g.2); try done. by apply insert_insert_ne.
Qed.

Lemma written_permutation (files files' : list (string * result ET.Element)) :
  files ≡ₚ files' → NoDup (output_name <$> files) →
  ∀ out, written out files = written out files'.
Proof.
  induction 1 as [|f l l' Hp IH|f g l|l1 l2 l3 Hp1 IH1 Hp2 IH2]; intros Hnd out.
  - done.
  - rewrite fmap_cons in Hnd. apply NoDup_cons in Hnd as [_ Hnd].
    simpl. by apply IH.
  - rewrite !fmap_cons in Hnd. apply NoDup_cons in Hnd as [Hg _].
    simpl. rewrite written_swap; [done|].
    intros E. apply Hg. rewrite E. apply list_elem_of_here.
  - rewrite IH1 by done. apply IH2. by rewrite <- Hp1.
Qed.

(** X14. The result of the batch does not depend on the order in which
    the directory is listed (its names being all different): the tally is
    the same and the output directory is the same. *)
Theorem convert_all_order (input_dir input_dir' : list (string * result ET.Element))
    (out : gmap string string) :
  input_dir ≡ₚ input_dir' → NoDup input_dir.*1 →
  convert_all input_dir out = convert_all input_dir' out.
Proof.
  intros Hp Hnd. rewrite !convert_all_fold. cbv zeta.
  assert (Hpick : picked input_dir ≡ₚ picked input_dir') by (by rewrite Hp).
  f_equal; [f_equal|].
  - by rewrite Hpick.
  - by rewrite Hpick.
  - apply written_permutation; [done|]. by apply picked_output_names.
Qed.

Lemma failed_count (files : list (string * result ET.Element)) :
  (length files
   - length (filter (λ f, (convert_annotation f ∅).1 = true) files))%nat
  = length (filter (λ f, (convert_annotation f ∅).1 = false) files).
Proof.
  induction files as [|f files IH]; [done|].
  rewrite !filter_cons.
  destruct ((convert_annotation f ∅).1) eqn:E.
  - rewrite decide_True by done. rewrite decide_False by done. simpl. exact IH.
  - rewrite decide_False by done. rewrite decide_True by done. simpl.
    pose proof (length_filter (λ f, (convert_annotation f ∅).1 = true) files).
    lia.
Qed.

(** X15. The batch never counts more converted files than files, and
    the files it does not count as converted are those whose single-file
    conversion returned false. *)
Theorem convert_all_counts (input_dir : list (string * result ET.Element))
    (out : gmap string string) :
  let '(success_count, total_files) := (convert_all input_dir out).1 in
  (success_count ≤ total_files)%nat
  ∧ (total_files - success_count)%nat
    = length (filter (λ f, (convert_annotation f ∅).1 = false)
                (picked input_dir)).
Proof.
  rewrite convert_all_fold. cbv zeta. simpl fst.
  split; [apply length_filter|apply failed_count].
Qed.

End Batch.

(** ** The command line *)

Lemma split_nonempty (sep : ascii) (s : string) : split sep s ≠ [].
Proof.
  induction s as [|c s IH]; simpl; [done|].
  destruct (Ascii.eqb c sep); [done|]. by destruct (split sep s).
Qed.

Lemma concat_cons_more (sep x : string) (l : list string) :
  l ≠ [] → String.concat sep (x :: l) = x +:+ sep +:+ String.concat sep l.
Proof. by destruct l. Qed.

(** X16. Splitting at a separator loses nothing, joining the pieces with
    the separator gives the string back; there is always at least one
    piece, and no piece holds the separator: a class name given on the
    command line never contains a comma. *)
Theorem split_join (sep : ascii) (s : string) :
  String.concat (String sep "") (split sep s) = s
  ∧ split sep s ≠ []
  ∧ ∀ piece, piece ∈ split sep s → sep ∉ String.list_ascii_of_string piece.
Proof.
  split; [|split; [apply split_nonempty|]].
  - induction s as [|c s IH]; [reflexivity|]. simpl split.
    destruct (Ascii.eqb c sep) eqn:E.
    + apply Ascii.eqb_eq in E as ->.
      rewrite concat_cons_more by apply split_nonempty. by rewrite IH.
    + pose proof (split_nonempty sep s) as Hne.
      destruct (split sep s) as [|piece [|piece' rest]]; [done|..].
      * simpl in *. by rewrite IH.
      * rewrite <- IH. reflexivity.
  - induction s as [|c s IH]; simpl split.
    + intros piece Hin. apply list_elem_of_singleton in Hin as ->.
      simpl. apply not_elem_of_nil.
    + destruct (Ascii.eqb c sep) eqn:E.
      * intros piece Hin. apply elem_of_cons in Hin as [->|Hin]; [|by apply IH].
        simpl. apply not_elem_of_nil.
      * apply Ascii.eqb_neq in E.
        pose proof (split_nonempty sep s) as Hne.
        destruct (split sep s) as [|piece' rest]; [done|].
        intros piece Hin. apply elem_of_cons in Hin as [->|Hin].
        -- simpl. intros Hc. apply elem_of_cons in Hc as [->|Hc]; [done|].
           revert Hc. apply IH. apply list_elem_of_here.
        -- apply IH. by apply list_elem_of_further.
Qed.

Section Report.

Variable py_int : string → option Z.
Variable py_float : string → option Q.

Local Abbreviation main := (main py_int py_float).

(** X17. What [main] prints: the pair that [convert_all] returns for
    the class list split at the commas; the number of failed files is
    printed exactly when some picked file does not convert, and it is the
    number of those files. *)
Theorem main_report (args_classes : string)
    (input_dir : list (string * result ET.Element))
    (out : gmap string string) :
  let classes := split "," args_classes in
  let picked := filter (λ f, matches_xml f.1 = true) input_dir in
  let failing :=
    filter (λ f, (convert_annotation py_int py_float classes f ∅).1 = false)
      picked in
  let '(success_count, total_files, failed) := (main args_classes input_dir out).1 in
  (success_count, total_files)
  = (convert_all py_int py_float classes input_dir out).1
  ∧ (main args_classes input_dir out).2
    = (convert_all py_int py_float classes input_dir out).2
  ∧ (success_count + length failing)%nat = total_files
  ∧ failed = (if decide (failing = []) then None else Some (length failing)).
Proof.
  intros classes picked failing. unfold main. fold classes.
  rewrite convert_all_fold. cbv zeta. fold picked. simpl.
  pose proof (failed_count py_int py_float classes picked) as Hf.
  fold failing in Hf.
  pose proof (length_filter
                (λ f, (convert_annotation py_int py_float classes f ∅).1 = true)
                picked) as Hle.
  split; [done|]. split; [done|]. split; [lia|].
  destruct (Nat.ltb_spec
              (length (filter (λ f, (convert_annotation py_int py_float classes f ∅).1 = true) picked))
              (length picked)) as [Hlt|Hge].
  - rewrite decide_False; [by rewrite Hf|].
    intros E. rewrite E in Hf. simpl in Hf. lia.
  - rewrite decide_True; [done|].
    apply length_zero_iff_nil. lia.
Qed.

End Report.


(** ** The further properties on concrete documents *)

Module MoreExamples.

Import Sample.

Local Abbreviation convert_object := (convert_object dec_int dec_float classes).
Local Abbreviation has_size := (has_size dec_int).

Lemma size_100_200_read (cs : list ET.Element) :
  has_size (annotation (size_100_200 :: cs)) 100 200.
Proof. exists size_100_200. repeat split; reflexivity. Qed.

Lemma output_in_document_order_witness :
  let root := annotation [size_100_200; drug; cup; drug] in
  (convert "a.xml" (Ok root)).2 !! "a.txt" = Some (drug_line +:+ drug_line).
Proof.
  intros root. etransitivity.
  - exact (proj2 (output_in_document_order dec_int dec_float classes)
             "a.xml" root ∅ 100%Z 200%Z (size_100_200_read _) eq_refl).
  - reflexivity.
Defined.

Lemma first_bad_corner_witness :
  skipped dec_int dec_float classes 100 200 bad_corner
  ∧ (convert "a.xml" (Ok (annotation [size_100_200; drug; empty_corner]))).1
    = false.
Proof.
  assert (Hc : configured classes (Some "battery")).
  { exists "battery". split; [done|]. apply list_elem_of_here. }
  assert (Hprev : ∀ j c', (j < 2)%nat → corner_names !! j = Some c' →
            ∃ a, ET.text_of (ET.find c' (bndbox "0" "abc" "50" "50"))
                 ≫= float_ dec_float = Ok a).
  { intros [|[|j]] c' Hj Hc'; [| |lia]; simpl in Hc'; injection Hc' as <-;
      by eexists. }
  split.
  - apply (proj1 (proj2 (first_bad_corner dec_int dec_float classes
                           bad_corner (leaf "name" "battery")
                           (bndbox "0" "abc" "50" "50") 2 "ymin"
                           eq_refl eq_refl Hc eq_refl eq_refl Hprev))
             (leaf "ymin" "abc") "abc" eq_refl eq_refl eq_refl).
  - destruct (first_bad_corner dec_int dec_float classes
                empty_corner (leaf "name" "battery")
                (node "bndbox"
                   [ET.Elem "xmin" None []; leaf "ymin" "0";
                    leaf "xmax" "50"; leaf "ymax" "50"])
                0 "xmin" eq_refl eq_refl Hc eq_refl eq_refl
                ltac:(intros j c' Hj; lia)) as (_ & _ & Hempty).
    apply (proj2 (Hempty (ET.Elem "xmin" None []) eq_refl eq_refl)).
    simpl. apply list_elem_of_further. apply list_elem_of_here.
Defined.

Lemma difficult_flag_values_witness :
  is_difficult dec_int drug = Ok false
  ∧ (convert "a.xml" (Ok (annotation [size_100_200; drug; bad_flag]))).1 = false.
Proof.
  pose proof (difficult_flag_values dec_int dec_float classes
                drug (leaf "difficult" "0") eq_refl) as [H0 _].
  pose proof (difficult_flag_values dec_int dec_float classes
                bad_flag (leaf "difficult" "abc") eq_refl) as [_ Hbad].
  split.
  - apply (H0 "0" 0%Z); [reflexivity|reflexivity|lia].
  - apply Hbad.
    + right. by exists "abc".
    + simpl. apply list_elem_of_further. apply list_elem_of_here.
Defined.

Lemma convert_annotation_frame_witness :
  (convert_annotation dec_int dec_float classes
     ("a.xml", Ok (annotation [size_100_200; drug]))
     {[ "a.txt" := "old"; "b.txt" := "kept" ]}).2 !! "b.txt"
  = Some "kept".
Proof.
  rewrite (proj1 (convert_annotation_frame dec_int dec_float classes
                    ("a.xml", Ok (annotation [size_100_200; drug]))
                    {[ "a.txt" := "old"; "b.txt" := "kept" ]}) "b.txt").
  - reflexivity.
  - discriminate.
Defined.

Lemma input_dir_names : NoDup input_dir.*1.
Proof. apply (bool_decide_unpack _). reflexivity. Qed.

Lemma convert_all_outputs_witness :
  (convert_all dec_int dec_float classes input_dir {[ "z.txt" := "kept" ]}).2
    !! "a.txt" = Some drug_line
  ∧ (convert_all dec_int dec_float classes input_dir {[ "z.txt" := "kept" ]}).2
      !! "z.txt" = Some "kept".
Proof.
  destruct (convert_all_outputs dec_int dec_float classes input_dir
              {[ "z.txt" := "kept" ]} input_dir_names) as [Hin Hout].
  split.
  - etransitivity.
    + apply (Hin ("a.xml", Ok (annotation [size_100_200; drug]))
               (annotation [size_100_200; drug])); [|done..].
      apply list_elem_of_here.
    + reflexivity.
  - rewrite Hout; [reflexivity|].
    intros f root Hf _ _. unfold input_dir in Hf.
    repeat (apply elem_of_cons in Hf as [->|Hf]; [discriminate|]).
    by apply elem_of_nil in Hf.
Defined.

Lemma convert_all_order_witness :
  convert_all dec_int dec_float classes input_dir ∅
  = convert_all dec_int dec_float classes (reverse input_dir) ∅.
Proof.
  apply convert_all_order; [|exact input_dir_names].
  symmetry. apply reverse_Permutation.
Defined.

Lemma split_join_witness :
  "drug" ∈ split "," "battery,drug,plastic"
  ∧ ("," : ascii) ∉ String.list_ascii_of_string "drug".
Proof.
  assert (Hin : "drug" ∈ split "," "battery,drug,plastic").
  { simpl. apply list_elem_of_further. apply list_elem_of_here. }
  split; [exact Hin|].
  exact (proj2 (proj2 (split_join "," "battery,drug,plastic")) "drug" Hin).
Defined.

(** The default class list of the command line, and a run of [main] on
    the sample directory. *)
Example default_classes :
  split ","
    "battery,drug,plastic,metal,potato,carrot,daikon,brick,cobblestone,cup"
  = ["battery"; "drug"; "plastic"; "metal"; "potato"; "carrot"; "daikon";
     "brick"; "cobblestone"; "cup"].
Proof. reflexivity. Qed.

Example main_on_input_dir :
  (main dec_int dec_float "battery,drug,plastic" input_dir ∅).1
  = (2, 4, Some 2)%nat.
Proof. reflexivity. Qed.

End MoreExamples.

(** ** The coordinate transform over binary64 *)

Lemma f64_truediv_zero (a : float) : F64.truediv a 0 = Raise ZeroDivisionError.
Proof. reflexivity. Qed.

Lemma f64_truediv_ok (a r : float) (n : Z) :
  F64.truediv a n = Ok r →
  n ≠ 0%Z ∧ ∃ b, F64.of_int n = Ok b ∧ is_zero b = false ∧ r = (a / b)%float.
Proof.
  intros H. split.
  - intros ->. by rewrite f64_truediv_zero in H.
  - unfold F64.truediv in H. destruct (F64.of_int n) as [b|e]; [|done].
    simpl in H. destruct (is_zero b) eqn:Hz; [done|].
    injection H as <-. by exists b.
Qed.

Lemma f64_truediv_defined (a b : float) (n : Z) :
  F64.of_int n = Ok b → is_zero b = false → F64.truediv a n = Ok (a / b)%float.
Proof. intros Hn Hz. unfold F64.truediv. rewrite Hn. simpl. by rewrite Hz. Qed.

Lemma f64_convert_coordinates_defined (w h : Z) (W H xmin xmax ymin ymax : float) :
  F64.of_int w = Ok W → F64.of_int h = Ok H →
  is_zero W = false → is_zero H = false →
  F64.convert_coordinates (w, h) (xmin, xmax, ymin, ymax)
  = Ok ((xmin + xmax) / 2 * (1 / W), (ymin + ymax) / 2 * (1 / H),
        (xmax - xmin) * (1 / W), (ymax - ymin) * (1 / H))%float.
Proof.
  intros Hw Hh HW HH. unfold F64.convert_coordinates. simpl fst. simpl snd.
  rewrite (f64_truediv_defined _ W w Hw HW). simpl.
  by rewrite (f64_truediv_defined _ H h Hh HH).
Qed.

(** The transform returns only when both reciprocals are defined. *)
Lemma f64_convert_coordinates_ok (w h : Z) (b n : F64.box) :
  F64.convert_coordinates (w, h) b = Ok n →
  ∃ dw dh, F64.truediv 1 w = Ok dw ∧ F64.truediv 1 h = Ok dh.
Proof.
  destruct b as [[[b0 b1] b2] b3]. unfold F64.convert_coordinates.
  simpl fst. simpl snd.
  destruct (F64.truediv 1 w) as [dw|e]; [|done]. simpl.
  destruct (F64.truediv 1 h) as [dh|e]; [|done]. by exists dw, dh.
Qed.

Lemma f64_convert_coordinates_scalable (w h : Z) (dw dh : float) (b : F64.box) :
  F64.truediv 1 w = Ok dw → F64.truediv 1 h = Ok dh →
  ∃ n, F64.convert_coordinates (w, h) b = Ok n.
Proof.
  intros Hw Hh. destruct b as [[[b0 b1] b2] b3]. unfold F64.convert_coordinates.
  simpl fst. simpl snd. rewrite Hw. simpl. rewrite Hh. by eexists.
Qed.

Lemma f64_convert_coordinates_zero (w h : Z) (b : F64.box) :
  w = 0%Z ∨ h = 0%Z →
  F64.convert_coordinates (w, h) b = Raise ZeroDivisionError
  ∨ F64.convert_coordinates (w, h) b = Raise OverflowError.
Proof.
  destruct b as [[[b0 b1] b2] b3]. unfold F64.convert_coordinates.
  simpl fst. simpl snd. intros [-> | ->].
  - by left.
  - rewrite f64_truediv_zero. unfold F64.truediv.
    destruct (F64.of_int w) as [W|e] eqn:E.
    + simpl. destruct (is_zero W); by left.
    + unfold F64.of_int in E. destruct (is_infinity _); [|done].
      injection E as <-. by right.
Qed.

Lemma f64_convert_coordinates_raises (w h : Z) (b : F64.box) :
  w = 0%Z ∨ h = 0%Z → ∃ e, F64.convert_coordinates (w, h) b = Raise e.
Proof.
  intros Hz. destruct (f64_convert_coordinates_zero w h b Hz) as [-> | ->];
    by eexists.
Qed.

(** C1 (amended). For an image size whose width and height convert to
    floats that are not zero, and for every box, [convert_coordinates]
    returns the four products [((xmin+xmax)/2) * (1/w)],
    [((ymin+ymax)/2) * (1/h)], [(xmax-xmin) * (1/w)],
    [(ymax-ymin) * (1/h)], every operation being the binary64 one,
    whatever the corners are (no clamping, no validation). In exact
    arithmetic these products are the quotients of the specification; for
    the image size (100,200) and the box (10,30,50,150) the floats
    returned are (0.2, 0.5, 0.2, 0.5). *)
Theorem binary64_transform :
  (∀ (w h : Z) (W H xmin xmax ymin ymax : float),
     F64.of_int w = Ok W → F64.of_int h = Ok H →
     is_zero W = false → is_zero H = false →
     F64.convert_coordinates (w, h) (xmin, xmax, ymin, ymax)
     = Ok ((xmin + xmax) / 2 * (1 / W), (ymin + ymax) / 2 * (1 / H),
           (xmax - xmin) * (1 / W), (ymax - ymin) * (1 / H))%float)
  ∧ (∀ (w h : Z) (b : box),
       w ≠ 0%Z → h ≠ 0%Z →
       ∃ n, convert_coordinates (w, h) b = Ok n ∧ box_eq n (spec_transform w h b))
  ∧ F64.convert_coordinates (100, 200)%Z (10, 30, 50, 150)%float
    = Ok (0.2, 0.5, 0.2, 0.5)%float.
Proof.
  split; [|split].
  - intros. by apply f64_convert_coordinates_defined.
  - intros w h [[[xmin xmax] ymin] ymax] Hw Hh.
    eexists. split; [by apply convert_coordinates_nonzero|].
    pose proof (inject_Z_nonzero w Hw). pose proof (inject_Z_nonzero h Hh).
    unfold box_eq, spec_transform. repeat split; field; assumption.
  - reflexivity.
Qed.

Lemma binary64_transform_witness :
  F64.of_int 640 = Ok 640%float ∧ F64.of_int 480 = Ok 480%float
  ∧ F64.convert_coordinates (640, 480)%Z (0, 1, 0, 1)%float
    = Ok ((0 + 1) / 2 * (1 / 640), (0 + 1) / 2 * (1 / 480),
          (1 - 0) * (1 / 640), (1 - 0) * (1 / 480))%float.
Proof.
  split; [reflexivity|]. split; [reflexivity|].
  apply (proj1 binary64_transform 640%Z 480%Z); reflexivity.
Defined.

(** In binary64 the product by the reciprocal is not the quotient: for
    a box centred at 35 in an image 100 wide the code returns
    0.35000000000000003, and 35/100 is another float. *)
Lemma binary64_transform_counterexample :
  ∃ x y wn hn,
    F64.convert_coordinates (100, 200)%Z (35, 35, 50, 150)%float
    = Ok (x, y, wn, hn)
    ∧ x = 0.35000000000000003%float
    ∧ (x =? ((35 + 35) / 2) / 100)%float = false.
Proof. do 4 eexists. split; [reflexivity|]. split; reflexivity. Qed.

(** A width that is not zero and has no float: [1.0 / width] raises
    [OverflowError]. *)
Example binary64_transform_overflow :
  F64.convert_coordinates (10 ^ 309, 1)%Z (1, 2, 0, 0)%float
  = Raise OverflowError.
Proof. reflexivity. Qed.




(** ** Six decimals of a float *)

Lemma magnitude_pos (m : positive) (e : Z) : (0 < F64.magnitude m e)%Q.
Proof.
  destruct e as [|p|p]; unfold F64.magnitude, Qlt; simpl; lia.
Qed.

Lemma format6_field (f : float) : field_text f (F64.format6 f).
Proof.
  unfold field_text, F64.format6. destruct (Prim2SF f) as [s|s| |s m e]; try done.
  pose proof (magnitude_pos m e) as Hpos.
  set (mag := F64.magnitude m e) in *.
  destruct (format6_six_decimals (if s then Qopp mag else mag))
    as (ip & frac & E & Hip & Hl & Hd & Hn).
  exists ip, frac. rewrite E. split; [|split; [done|split; [done|split; [done|]]]].
  - destruct s.
    + destruct (Qle_bool 0 (- mag)) eqn:H; [|done].
      apply Qle_bool_iff in H. lra.
    + destruct (Qle_bool 0 mag) eqn:H; [done|].
      assert (H' : Qle_bool 0 mag = true) by (apply Qle_bool_iff; lra).
      congruence.
  - assert (Ha : (Qabs (if s then Qopp mag else mag) == mag)%Q).
    { destruct s; [rewrite Qabs_opp|]; apply Qabs_pos; lra. }
    apply Qabs_Qle_condition in Hn as [Hn1 Hn2].
    apply Qabs_Qle_condition. split; lra.
Qed.



(** The centre of a box whose corners are both the negative zero is the
    negative zero, and its text has nine characters. *)
Example negative_zero_text :
  F64.convert_coordinates (100, 200)%Z (-0, -0, 0, 0)%float
  = Ok (-0, 0, 0, 0)%float
  ∧ F64.format6 (-0)%float = "-0.000000".
Proof. split; reflexivity. Qed.

(** ** Single-file conversion over binary64 *)

Section Binary64.

Variable py_int : string → option Z.
Variable py_float : string → option float.
Variable classes : list string.

Local Abbreviation convert_object := (F64.convert_object py_int py_float classes).
Local Abbreviation convert_root := (F64.convert_root py_int py_float classes).
Local Abbreviation convert_annotation :=
  (F64.convert_annotation py_int py_float classes).
Local Abbreviation is_difficult := (is_difficult py_int).
Local Abbreviation corners := (F64.corners py_float).
Local Abbreviation skipped := (F64.skipped py_int py_float classes).
Local Abbreviation retained := (F64.retained py_int py_float classes).
Local Abbreviation has_size := (has_size py_int).

Ltac run :=
  unfold F64.convert_object, mbind, io_bind, mret, io_ret, io_lift, write.

Lemma f64_object_retained (w h : Z) (obj : ET.Element) (cls_id : nat)
    (b : F64.box) :
  retained obj cls_id b →
  ∀ txt, convert_object w h obj txt
         = match F64.convert_coordinates (w, h) b with
           | Ok n => (Ok tt, txt +:+ F64.yolo_line cls_id n)
           | Raise e => (Raise e, txt)
           end.
Proof.
  intros (Hd & name & xmlbox & Hn & Hi & Hb & Hc) txt.
  run. rewrite Hd, Hn. simpl.
  rewrite (index_contains _ _ _ Hi), Hi, Hb, Hc. simpl.
  by destruct (F64.convert_coordinates _ _).
Qed.

(** The three things the loop body can do with an object. *)
Lemma f64_object_cases (w h : Z) (obj : ET.Element) :
  skipped w h obj
  ∨ (∃ e, ∀ txt, convert_object w h obj txt = (Raise e, txt))
  ∨ (∃ cls_id b, retained obj cls_id b).
Proof.
  destruct (is_difficult obj) as [[|]|e] eqn:Hd.
  - left. intros txt. run. by rewrite Hd.
  - destruct (ET.find "name" obj) as [name|] eqn:Hn.
    2: { right; left. exists AttributeError. intros txt. run. by rewrite Hd, Hn. }
    destruct (contains (ET.text name) classes) eqn:Hc.
    2: { left. intros txt. run. rewrite Hd, Hn. simpl. by rewrite Hc. }
    destruct (contains_index _ _ Hc) as [k Hk].
    destruct (ET.find "bndbox" obj) as [xmlbox|] eqn:Hb.
    2: { left. intros txt. run. rewrite Hd, Hn. simpl. by rewrite Hc, Hk, Hb. }
    destruct (corners xmlbox) as [b|e] eqn:Hcs.
    { right; right. exists k, b. split; [done|]. by exists name, xmlbox. }
    destruct e.
    1, 3: left; intros txt; run; rewrite Hd, Hn; simpl;
          rewrite Hc, Hk, Hb, Hcs; reflexivity.
    all: right; left; eexists; intros txt; run.
    all: rewrite Hd, Hn; simpl; rewrite Hc, Hk, Hb, Hcs; reflexivity.
  - right; left. exists e. intros txt. run. by rewrite Hd.
Qed.

Lemma f64_root_sized (root : ET.Element) (w h : Z) (txt : string) :
  has_size root w h →
  convert_root root txt
  = match for_each (convert_object w h) (ET.iter "object" root) txt with
    | (Ok _, txt') => (Ok true, txt')
    | (Raise e, txt') => (Raise e, txt')
    end.
Proof.
  intros (size & Hs & Hw & Hh). unfold F64.convert_root. rewrite Hs.
  unfold mbind at 1, io_bind, io_lift. rewrite Hw.
  unfold mbind at 1. rewrite Hh.
  unfold mbind at 1. by destruct (for_each _ _ _) as [[[]|e] txt'].
Qed.

Lemma f64_annotation_sized (file : string) (root : ET.Element) (w h : Z)
    (out : gmap string string) :
  has_size root w h →
  convert_annotation (file, Ok root) out
  = (match (for_each (convert_object w h) (ET.iter "object" root) "").1 with
     | Ok _ => true
     | Raise _ => false
     end,
     <[stem file +:+ ".txt"
         := (for_each (convert_object w h) (ET.iter "object" root) "").2]> out).
Proof.
  intros Hs. unfold F64.convert_annotation. simpl.
  rewrite (f64_root_sized _ w h _ Hs).
  by destruct (for_each _ _ _) as [[[]|e] txt'].
Qed.

(** A file converts only if its size record reads as two integers. *)
Lemma f64_annotation_true (file : string) (root : ET.Element)
    (out : gmap string string) :
  (convert_annotation (file, Ok root) out).1 = true →
  ∃ w h, has_size root w h
         ∧ (for_each (convert_object w h) (ET.iter "object" root) "").1 = Ok tt.
Proof.
  intros Hok. unfold F64.convert_annotation in Hok. simpl in Hok.
  destruct (ET.find "size" root) as [size|] eqn:Hs.
  2: { unfold F64.convert_root in Hok. by rewrite Hs in Hok. }
  destruct (ET.text_of (ET.find "width" size) ≫= int_ py_int) as [w|ew] eqn:Hw.
  2: { unfold F64.convert_root in Hok. rewrite Hs in Hok.
       unfold mbind at 1, io_bind, io_lift in Hok. by rewrite Hw in Hok. }
  destruct (ET.text_of (ET.find "height" size) ≫= int_ py_int) as [h|eh] eqn:Hh.
  2: { unfold F64.convert_root in Hok. rewrite Hs in Hok.
       unfold mbind at 1, io_bind, io_lift in Hok. rewrite Hw in Hok.
       unfold mbind at 1 in Hok. by rewrite Hh in Hok. }
  assert (Hsz : has_size root w h) by (by exists size).
  exists w, h. split; [done|].
  rewrite (f64_root_sized _ w h _ Hsz) in Hok.
  by destruct (for_each _ _ _) as [[[]|e] txt'].
Qed.

(** C3 (amended). For a retained object for which the coordinate
    transform returns, the loop body writes one line: the class
    identifier, which is the first position of the object's class name in
    the class list, then the four floats of the transform, each written
    by the six-decimal format (six decimals, correctly rounded from the
    exact value of the float, when it is finite; [nan], [inf] or [-inf]
    otherwise), separated by single spaces and ended by a newline. *)
Theorem binary64_object_line (w h : Z) (obj : ET.Element) (cls_id : nat)
    (b : F64.box) (x y wn hn : float) :
  retained obj cls_id b →
  F64.convert_coordinates (w, h) b = Ok (x, y, wn, hn) →
  ∃ (name : ET.Element) (cls : string),
    ET.find "name" obj = Some name ∧ ET.text name = Some cls
    ∧ classes !! cls_id = Some cls
    ∧ (∀ j, (j < cls_id)%nat → classes !! j ≠ Some cls)
    ∧ (∀ txt, convert_object w h obj txt
              = (Ok tt, txt +:+ pretty cls_id +:+ " " +:+ F64.format6 x +:+ " "
                          +:+ F64.format6 y +:+ " " +:+ F64.format6 wn +:+ " "
                          +:+ F64.format6 hn +:+ newline))
    ∧ field_text x (F64.format6 x) ∧ field_text y (F64.format6 y)
    ∧ field_text wn (F64.format6 wn) ∧ field_text hn (F64.format6 hn).
Proof.
  intros Hret Hcc.
  pose proof Hret as (Hd & name & xmlbox & Hn & Hi & Hb & Hc).
  destruct (ET.text name) as [cls|] eqn:Ht; [|discriminate].
  destruct (index_from_spec _ _ _ _ Hi) as (j & -> & Hj & Hfirst).
  exists name, cls.
  split; [done|]. split; [done|]. split; [done|]. split; [done|]. split.
  - intros txt. rewrite (f64_object_retained w h _ _ _ Hret), Hcc.
    unfold F64.yolo_line. simpl String.concat. by rewrite !append_assoc.
  - repeat split; apply format6_field.
Qed.

(** C7 (amended). The transform returns values only when width and
    height are both non-zero: a zero one raises, and negative ones are
    not rejected. For a file whose size record has a zero width or height
    no line is ever written; the conversion returns false as soon as the
    file has a retained object, and returns true exactly when every
    object is passed over. A size record without a width or a height
    makes the conversion return false. *)
Theorem binary64_zero_size :
  (∀ w h b n, F64.convert_coordinates (w, h) b = Ok n → w ≠ 0%Z ∧ h ≠ 0%Z)
  ∧ (∀ file root out w h,
       has_size root w h → w = 0%Z ∨ h = 0%Z →
       (convert_annotation (file, Ok root) out).2 = <[stem file +:+ ".txt" := ""]> out
       ∧ ((convert_annotation (file, Ok root) out).1 = true
          ↔ Forall (skipped w h) (ET.iter "object" root))
       ∧ (∀ obj cls_id b,
            obj ∈ ET.iter "object" root → retained obj cls_id b →
            (convert_annotation (file, Ok root) out).1 = false))
  ∧ (∀ file root size out,
       ET.find "size" root = Some size →
       ET.find "width" size = None ∨ ET.find "height" size = None →
       (convert_annotation (file, Ok root) out).1 = false).
Proof.
  split; [|split].
  - intros w h b n Hn. split; intros ->.
    + destruct (f64_convert_coordinates_raises 0 h b) as [e He]; [by left|].
      by rewrite He in Hn.
    + destruct (f64_convert_coordinates_raises w 0 b) as [e He]; [by right|].
      by rewrite He in Hn.
  - intros file root out w h Hs Hz.
    assert (Hbody : ∀ obj txt, (convert_object w h obj txt).2 = txt).
    { intros obj txt.
      destruct (f64_object_cases w h obj) as [H|[[e H]|(k & b & H)]].
      - by rewrite H.
      - by rewrite H.
      - rewrite (f64_object_retained w h _ _ _ H).
        by destruct (f64_convert_coordinates_raises w h b Hz) as [e ->]. }
    assert (Hloop : ∀ objs txt, (for_each (convert_object w h) objs txt).2 = txt).
    { induction objs as [|obj objs IH]; intros txt; [done|].
      simpl. unfold mbind, io_bind. pose proof (Hbody obj txt) as E.
      destruct (convert_object w h obj txt) as [[[]|e] t'];
        simpl in E; subst t'; [apply IH|done]. }
    rewrite (f64_annotation_sized _ _ w h _ Hs). simpl. rewrite Hloop.
    assert (Hiff : (match (for_each (convert_object w h) (ET.iter "object" root) "").1 with
                    | Ok _ => true | Raise _ => false end) = true
                   ↔ Forall (skipped w h) (ET.iter "object" root)).
    { split.
      - destruct (for_each _ _ _) as [[[]|e] txt'] eqn:E; [|done]. intros _.
        apply for_each_ok in E. eapply Forall_impl; [exact E|].
        intros obj (t & t' & Ht). simpl in Ht.
        destruct (f64_object_cases w h obj) as [H|[[e H]|(k & b & H)]]; [done|..].
        + by rewrite H in Ht.
        + rewrite (f64_object_retained w h _ _ _ H) in Ht.
          by destruct (f64_convert_coordinates_raises w h b Hz) as [e He];
            rewrite He in Ht.
      - intros Hall. by rewrite (for_each_skipped _ _ Hall). }
    split; [done|]. split; [done|].
    intros obj k b Hin Hret. apply not_true_is_false. intros E.
    apply Hiff in E. rewrite Forall_forall in E. specialize (E obj Hin "").
    rewrite (f64_object_retained w h _ _ _ Hret) in E.
    by destruct (f64_convert_coordinates_raises w h b Hz) as [e He];
      rewrite He in E.
  - intros file root size out Hs Hmiss. unfold F64.convert_annotation. simpl.
    unfold F64.convert_root. rewrite Hs. unfold mbind at 1, io_bind, io_lift.
    destruct Hmiss as [-> | Hh]; [done|].
    destruct (ET.text_of (ET.find "width" size) ≫= int_ py_int); [|done].
    unfold mbind at 1. by rewrite Hh.
Qed.

(** X8. When single-file conversion succeeds: the file parses, its size
    record reads as two integers, and every object is either passed over
    or retained, [1.0 / width] and [1.0 / height] being both defined (the
    integer is not zero and not too large for a float) as soon as one
    object is retained. *)
Theorem binary64_conversion_succeeds_iff (f : string * result ET.Element)
    (out : gmap string string) :
  (convert_annotation f out).1 = true
  ↔ ∃ root w h,
      f.2 = Ok root ∧ has_size root w h
      ∧ Forall (λ obj, skipped w h obj
                       ∨ ((∃ k b, retained obj k b)
                          ∧ ∃ dw dh, F64.truediv 1 w = Ok dw
                                     ∧ F64.truediv 1 h = Ok dh))
          (ET.iter "object" root).
Proof.
  destruct f as [file [root|e]]; simpl.
  2: { split; [done|]. by intros (root & w & h & [=] & _). }
  split.
  - intros Hok. apply f64_annotation_true in Hok as (w & h & Hs & Hall).
    exists root, w, h. split; [done|]. split; [done|].
    destruct (for_each _ _ _) as [[[]|e] txt'] eqn:E; [|done].
    apply for_each_ok in E. eapply Forall_impl; [exact E|].
    intros obj (t & t' & Ht). simpl in Ht.
    destruct (f64_object_cases w h obj) as [H|[[e H]|(k & b & H)]];
      [by left|by rewrite H in Ht|].
    right. split; [by exists k, b|].
    rewrite (f64_object_retained w h _ _ _ H) in Ht.
    destruct (F64.convert_coordinates (w, h) b) as [n|e] eqn:Hcc; [|done].
    by apply f64_convert_coordinates_ok in Hcc.
  - intros (root' & w & h & [= <-] & Hs & Hall).
    rewrite (f64_annotation_sized _ _ w h _ Hs). simpl.
    destruct (for_each_all_ok (convert_object w h) (ET.iter "object" root)) with (txt := "")
      as [txt' ->]; [|done].
    eapply Forall_impl; [exact Hall|].
    intros obj [H|((k & b & H) & dw & dh & Hw & Hh)] txt.
    + exists txt. apply H.
    + rewrite (f64_object_retained w h _ _ _ H).
      destruct (f64_convert_coordinates_scalable w h dw dh b Hw Hh) as [n ->].
      eauto.
Qed.

End Binary64.

(** ** The batch over binary64 *)

Section Binary64Batch.

Variable py_int : string → option Z.
Variable py_float : string → option float.
Variable classes : list string.
Variable listdir : string → list (string * result ET.Element).
Variable glob_dirs : string → list string.

Local Abbreviation convert_annotation :=
  (F64.convert_annotation py_int py_float classes).
Local Abbreviation glob_xml := (F64.glob_xml listdir glob_dirs).
Local Abbreviation convert_all :=
  (F64.convert_all py_int py_float classes listdir glob_dirs).






End Binary64Batch.

(** ** The binary64 properties on concrete documents *)

Module Examples64.

Import Sample Sample64.

Local Abbreviation convert_object :=
  (F64.convert_object dec_int Sample64.dec_float classes).
Local Abbreviation retained :=
  (F64.retained dec_int Sample64.dec_float classes).
Local Abbreviation has_size := (has_size dec_int).

Lemma drug_retained64 : retained drug 1 (10, 30, 50, 150)%float.
Proof.
  split; [reflexivity|].
  exists (leaf "name" "drug"), (bndbox "10" "50" "30" "150").
  repeat split; reflexivity.
Qed.

Lemma nan_corner_retained : retained nan_corner 0 (nan, 50, 0, 50)%float.
Proof.
  split; [reflexivity|].
  exists (leaf "name" "battery"), (bndbox "nan" "0" "50" "50").
  repeat split; reflexivity.
Qed.

Lemma binary64_object_line_witness :
  convert_object 100 200 drug ""
  = (Ok tt, "" +:+ pretty 1%nat +:+ " " +:+ F64.format6 0.2 +:+ " "
              +:+ F64.format6 0.5 +:+ " " +:+ F64.format6 0.2 +:+ " "
              +:+ F64.format6 0.5 +:+ newline)
  ∧ field_text 0.2 (F64.format6 0.2).
Proof.
  destruct (binary64_object_line dec_int Sample64.dec_float classes 100 200
              drug 1 (10, 30, 50, 150)%float 0.2 0.5 0.2 0.5
              drug_retained64 eq_refl)
    as (name & cls & _ & _ & _ & _ & Hw & Hx & _).
  split; [apply Hw|exact Hx].
Defined.

(** The line of the specification's example, and the line of a box one
    pixel wide in an image 640 wide: its width, 1 * (1.0 / 640), is a
    float above 0.0015625. *)
Example binary64_lines :
  convert_object 100 200 drug "" = (Ok tt, drug_line)
  ∧ F64.convert_coordinates (640, 480)%Z (0, 1, 0, 1)%float
    = Ok (0.00078125, 0.0010416666666666667, 0.0015625000000000001,
          0.0020833333333333333)%float
  ∧ F64.format6 0.0015625000000000001 = "0.001563".
Proof. repeat split; reflexivity. Qed.

(** A corner that reads as NaN: the object is retained, and two fields of
    its line are not numbers with six decimals. *)
Lemma binary64_object_line_counterexample :
  retained nan_corner 0 (nan, 50, 0, 50)%float
  ∧ convert_object 100 200 nan_corner ""
    = (Ok tt, "0 nan 0.125000 nan 0.250000" +:+ newline)
  ∧ (Sample64.convert "a.xml"
       (Ok (annotation [size_100_200; nan_corner]))).1 = true.
Proof. split; [exact nan_corner_retained|]. split; reflexivity. Qed.

Lemma binary64_zero_size_witness :
  let root := annotation [size "0" "200"; drug] in
  has_size root 0 200
  ∧ (Sample64.convert "a.xml" (Ok root)).1 = false
  ∧ (Sample64.convert "a.xml" (Ok root)).2 !! "a.txt" = Some "".
Proof.
  intros root.
  assert (Hs : has_size root 0 200).
  { exists (size "0" "200"). repeat split; reflexivity. }
  split; [exact Hs|].
  destruct (proj1 (proj2 (binary64_zero_size dec_int Sample64.dec_float classes))
              "a.xml" root ∅ 0%Z 200%Z Hs) as (Hout & _ & Hfalse); [by left|].
  split.
  - apply (Hfalse drug 1%nat (10, 30, 50, 150)%float).
    + apply list_elem_of_here.
    + exact drug_retained64.
  - unfold Sample64.convert. rewrite Hout. reflexivity.
Defined.

(** A file with a zero width and height whose objects are all passed
    over converts; and values are computed with a negative width. *)
Lemma binary64_zero_size_counterexample :
  (let root := annotation [size "0" "0"; hard_drug; cup] in
   has_size root 0 0
   ∧ (Sample64.convert "a.xml" (Ok root)).1 = true
   ∧ (Sample64.convert "a.xml" (Ok root)).2 !! "a.txt" = Some "")
  ∧ (let root := annotation [size "-100" "200"; drug] in
     has_size root (-100) 200
     ∧ F64.convert_coordinates (-100, 200)%Z (10, 30, 50, 150)%float
       = Ok (-0.2, 0.5, -0.2, 0.5)%float
     ∧ (Sample64.convert "a.xml" (Ok root)).1 = true
     ∧ (Sample64.convert "a.xml" (Ok root)).2 !! "a.txt"
       = Some ("1 -0.200000 0.500000 -0.200000 0.500000" +:+ newline)).
Proof.
  split; intros root.
  - split; [|by split]. exists (size "0" "0"). repeat split; reflexivity.
  - split; [|by repeat split]. exists (size "-100" "200"). repeat split; reflexivity.
Qed.

Lemma binary64_conversion_succeeds_iff_witness :
  ∃ root w h,
    Ok (annotation [size_100_200; drug; cup]) = Ok root ∧ has_size root w h
    ∧ Forall (λ obj, F64.skipped dec_int Sample64.dec_float classes w h obj
                     ∨ ((∃ k b, retained obj k b)
                        ∧ ∃ dw dh, F64.truediv 1 w = Ok dw
                                   ∧ F64.truediv 1 h = Ok dh))
        (ET.iter "object" root).
Proof.
  apply (proj1 (binary64_conversion_succeeds_iff dec_int Sample64.dec_float classes
                  ("a.xml", Ok (annotation [size_100_200; drug; cup])) ∅)).
  reflexivity.
Defined.

(** A width that [int] accepts and that is too large for a float: the
    object is retained, the width is not zero, and the file does not
    convert. *)
Example huge_width_fails :
  dec_int huge = Some (10 ^ 309)%Z
  ∧ F64.truediv 1 (10 ^ 309) = Raise OverflowError
  ∧ (Sample64.convert "a.xml" (Ok (annotation [size huge "200"; drug]))).1
    = false.
Proof. repeat split; reflexivity. Qed.



(** An object of a class that is not configured, with a difficulty flag
    that is not an integer: the file does not convert, and converts
    without the object. *)
Lemma unknown_class_counterexample :
  ET.find "name" cup_bad_flag = Some (leaf "name" "cup")
  ∧ ¬ configured classes (Some "cup")
  ∧ (Sample.convert "a.xml" (Ok (annotation [size_100_200; drug; cup_bad_flag]))).1
    = false
  ∧ (Sample.convert "a.xml" (Ok (annotation [size_100_200; drug]))).1 = true
  ∧ (Sample64.convert "a.xml"
       (Ok (annotation [size_100_200; drug; cup_bad_flag]))).1 = false.
Proof.
  split; [reflexivity|]. split; [|by repeat split].
  intros Hc. apply contains_configured in Hc. discriminate Hc.
Qed.

End Examples64.
